(** * Workflow engine of the Paperless / Lexoffice middleware

    A shallow embedding of the engine under [backend/app/engine]
    ([triggers.py], [actions.py], [executor.py]) together with the
    properties its specification states about it.

    Python values are embedded as a dynamic-value type, exceptions as
    values of an error type, and the effects of a run (calls to the two
    connectors, the lazily opened connector handles) as explicit state. *)

From Stdlib Require Import ZArith List String Ascii Bool.
From Stdlib Require Import Floats.SpecFloat DecimalString.
From Stdlib Require Import Sorting.Permutation Sorting.Sorted Lia.
Import ListNotations.
Local Open Scope string_scope.
Local Open Scope Z_scope.

Set Implicit Arguments.
Set Warnings "-register-all".

(** ** Python values *)

(** The values that reach the engine: decoded JSON (conditions, event
    payloads, action parameters, connector responses) and the bytes of a
    downloaded document.  Text is a string of code points below 256, one
    character each.  A mapping is kept as an association list in insertion
    order, as a Python [dict] keeps its items; only string keys occur.
    A float is a binary64 value in canonical form. *)
Inductive Value : Type :=
| VNone
| VBool (b : bool)
| VInt (z : Z)
| VFloat (f : spec_float)
| VStr (s : string)
| VBytes (b : string)
| VList (l : list Value)
| VDict (d : list (string * Value)).

Definition Dict : Type := list (string * Value).

(** Exceptions carry their class name and the text that [str(exc)] gives.
    The texts of the exceptions the interpreter raises are those of
    CPython 3.11 and 3.12. *)
Record Exn : Type := mkExn { exn_class : string; exn_message : string }.

Inductive Result (A : Type) : Type :=
| Ok (a : A)
| Raise (e : Exn).
Arguments Ok {A} a.
Arguments Raise {A} e.

Definition bindR {A B} (r : Result A) (k : A -> Result B) : Result B :=
  match r with
  | Ok a => k a
  | Raise e => Raise e
  end.

Definition ValueError (msg : string) : Exn := mkExn "ValueError" msg.
Definition TypeError (msg : string) : Exn := mkExn "TypeError" msg.
Definition AttributeError (msg : string) : Exn := mkExn "AttributeError" msg.
Definition KeyError (msg : string) : Exn := mkExn "KeyError" msg.
Definition OverflowError (msg : string) : Exn := mkExn "OverflowError" msg.

(** [type(v).__name__] *)
Definition type_name (v : Value) : string :=
  match v with
  | VNone => "NoneType"
  | VBool _ => "bool"
  | VInt _ => "int"
  | VFloat _ => "float"
  | VStr _ => "str"
  | VBytes _ => "bytes"
  | VList _ => "list"
  | VDict _ => "dict"
  end.

Definition no_attribute (v : Value) (attr : string) : Exn :=
  AttributeError ("'" ++ type_name v ++ "' object has no attribute '" ++ attr ++ "'").

(** ** Mappings *)

Module PyDict.

(** [d.get(key)], as an option *)
Fixpoint lookup (key : string) (d : Dict) : option Value :=
  match d with
  | [] => None
  | (k, v) :: rest => if String.eqb k key then Some v else lookup key rest
  end.

(** [d.get(key, default)] *)
Definition get (d : Dict) (key : string) (default : Value) : Value :=
  match lookup key d with
  | Some v => v
  | None => default
  end.

(** [d[key] = v]: an existing key keeps its position *)
Fixpoint set (d : Dict) (key : string) (v : Value) : Dict :=
  match d with
  | [] => [(key, v)]
  | (k, w) :: rest =>
      if String.eqb k key then (k, v) :: rest else (k, w) :: set rest key v
  end.

(** [d.update(other)] *)
Definition update (d other : Dict) : Dict :=
  fold_left (fun acc kv => set acc (fst kv) (snd kv)) other d.

Definition keys (d : Dict) : list string := map fst d.

(** The continuation form of [lookup]: [found] receives the stored value
    itself, so a function that is recursive on the mapping can descend
    into it. *)
Section Case.
Context {A : Type} (key : string) (found : Value -> A) (missing : A).

Fixpoint case (d : Dict) : A :=
  match d with
  | [] => missing
  | kv :: rest =>
      if String.eqb (fst kv) key then found (snd kv) else case rest
  end.

End Case.

End PyDict.

(** ** Truth, equality, text *)

(** [bool(v)] *)
Definition truthy (v : Value) : bool :=
  match v with
  | VNone => false
  | VBool b => b
  | VInt z => negb (z =? 0)
  | VFloat f =>
      match f with
      | S754_zero _ => false
      | _ => true
      end
  | VStr s => negb (String.eqb s "")
  | VBytes b => negb (String.eqb b "")
  | VList l =>
      match l with
      | [] => false
      | _ => true
      end
  | VDict d =>
      match d with
      | [] => false
      | _ => true
      end
  end.

(** [v is None] *)
Definition is_none (v : Value) : bool :=
  match v with
  | VNone => true
  | _ => false
  end.

(** [a or b] *)
Definition py_or (a b : Value) : Value := if truthy a then a else b.

(** Exact comparison of an [int] with a [float], as [==] does it. *)
Definition int_eq_float (z : Z) (f : spec_float) : bool :=
  match f with
  | S754_zero _ => z =? 0
  | S754_finite s m e =>
      let sm := if s then Z.neg m else Z.pos m in
      if 0 <=? e then z =? sm * 2 ^ e else z * 2 ^ (- e) =? sm
  | _ => false
  end.

Definition Z_of_bool (b : bool) : Z := if b then 1 else 0.

(** [a == b].  [bool], [int] and [float] compare by numeric value, text
    with text, sequences element by element, mappings key by key whatever
    the order of their items.  The operands always come from separately
    decoded documents, so the identity shortcut of the container
    comparisons never applies. *)
Fixpoint py_eq (a b : Value) {struct a} : bool :=
  match a, b with
  | VNone, VNone => true
  | VBool x, VBool y => Bool.eqb x y
  | VBool x, VInt y => Z_of_bool x =? y
  | VInt x, VBool y => x =? Z_of_bool y
  | VBool x, VFloat y => int_eq_float (Z_of_bool x) y
  | VFloat x, VBool y => int_eq_float (Z_of_bool y) x
  | VInt x, VInt y => x =? y
  | VInt x, VFloat y => int_eq_float x y
  | VFloat x, VInt y => int_eq_float y x
  | VFloat x, VFloat y => SFeqb x y
  | VStr x, VStr y => String.eqb x y
  | VBytes x, VBytes y => String.eqb x y
  | VList xs, VList ys =>
      (fix list_eq (xs ys : list Value) {struct xs} : bool :=
         match xs, ys with
         | [], [] => true
         | x :: xs', y :: ys' => py_eq x y && list_eq xs' ys'
         | _, _ => false
         end) xs ys
  | VDict xs, VDict ys =>
      Nat.eqb (List.length xs) (List.length ys) &&
      (fix items_eq (xs : Dict) {struct xs} : bool :=
         match xs with
         | [] => true
         | (k, x) :: xs' =>
             match PyDict.lookup k ys with
             | Some y => py_eq x y && items_eq xs'
             | None => false
             end
         end) xs
  | _, _ => false
  end.

(** [x in l] for a list [l] *)
Definition py_in_list (x : Value) (l : list Value) : bool :=
  existsb (fun item => py_eq item x) l.

(** [needle in s] for text *)
Fixpoint is_substring (needle s : string) : bool :=
  String.prefix needle s ||
  match s with
  | EmptyString => false
  | String _ rest => is_substring needle rest
  end.

(** [s.split(".")] *)
Fixpoint split_dot (s : string) : list string :=
  match s with
  | EmptyString => [""]
  | String c rest =>
      if Ascii.eqb c "."%char then "" :: split_dot rest
      else
        match split_dot rest with
        | [] => [String c ""]
        | part :: parts => String c part :: parts
        end
  end.

Definition chars (s : string) : list ascii := list_ascii_of_string s.

Definition is_decimal_char (c : ascii) : bool :=
  let n := nat_of_ascii c in
  (Nat.leb 48 n && Nat.leb n 57)%bool.

(** The code points below 256 that [str.isdigit] accepts: the decimal
    digits and the superscripts two, three and one. *)
Definition is_digit_char (c : ascii) : bool :=
  let n := nat_of_ascii c in
  is_decimal_char c || Nat.eqb n 178 || Nat.eqb n 179 || Nat.eqb n 185.

(** [s.isdigit()], on the text of the model: the characters beyond code
    point 255 that [str.isdigit] accepts are outside of it. *)
Definition isdigit (s : string) : bool :=
  negb (String.eqb s "") && forallb is_digit_char (chars s).

(** A segment of decimal digits only. *)
Definition is_decimal (s : string) : bool :=
  negb (String.eqb s "") && forallb is_decimal_char (chars s).

Definition decimal_value (s : string) : Z :=
  fold_left (fun acc c => 10 * acc + (Z.of_nat (nat_of_ascii c) - 48)) (chars s) 0.

Definition str_of_Z (z : Z) : string := DecimalString.NilZero.string_of_int (Z.to_int z).

(** The most digits [int] converts from text, as the interpreter is
    configured by default ([sys.get_int_max_str_digits()]). *)
Definition int_max_str_digits : Z := 4300.

(** The decimal digits that [int] reads from the start of a text, up to
    the first character that is none. *)
Fixpoint leading_digits (cs : list ascii) : Z :=
  match cs with
  | c :: rest => if is_decimal_char c then 1 + leading_digits rest else 0
  | [] => 0
  end.

(** [int(s)] for a segment that passed [isdigit].  [int] counts the
    decimal digits at the start of the text, leading zeros among them, and
    raises when they are more than the limit; then it raises unless the
    digits are the whole text: the superscript digits are digits to
    [isdigit] and not to [int]. *)
Definition int_of_digits (s : string) : Result Z :=
  let digits := leading_digits (chars s) in
  if int_max_str_digits <? digits then
    Raise (ValueError ("Exceeds the limit (4300 digits) for integer string conversion: value has "
                       ++ str_of_Z digits
                       ++ " digits; use sys.set_int_max_str_digits() to increase the limit"))
  else if forallb is_decimal_char (chars s) then Ok (decimal_value s)
  else Raise (ValueError ("invalid literal for int() with base 10: '" ++ s ++ "'")).

(** ** Builtins taken from the Python runtime

    The regular-expression engine, the parsing of text as a float and the
    [repr] of floats, text and bytes belong to the interpreter and its
    library; the engine is modelled over any implementation of them.
    [re_search pattern text] is [bool(re.search(pattern, text))] and raises
    [re.error] on a pattern that does not compile; [float_of_text] is [None]
    where [float] raises [ValueError]. *)
Record Builtins : Type := mkBuiltins {
  re_search : string -> string -> Result bool;
  float_of_text : string -> option spec_float;
  repr_float : spec_float -> string;
  repr_text : string -> string;
  repr_bytes : string -> string
}.

Definition float_of_Z (z : Z) : spec_float := binary_normalize 53 1024 z 0 false.

Section Runtime.

Variable py : Builtins.

(** [repr(v)] *)
Fixpoint py_repr (v : Value) : string :=
  match v with
  | VNone => "None"
  | VBool b => if b then "True" else "False"
  | VInt z => str_of_Z z
  | VFloat f => repr_float py f
  | VStr s => repr_text py s
  | VBytes b => repr_bytes py b
  | VList l => "[" ++ String.concat ", " (map py_repr l) ++ "]"
  | VDict d =>
      "{" ++ String.concat ", "
               (map (fun kv : string * Value =>
                       let (k, x) := kv in repr_text py k ++ ": " ++ py_repr x) d)
          ++ "}"
  end.

(** [str(v)] *)
Definition py_str (v : Value) : string :=
  match v with
  | VStr s => s
  | _ => py_repr v
  end.

(** [float(v)] *)
Definition py_float (v : Value) : Result spec_float :=
  match v with
  | VBool b => Ok (float_of_Z (Z_of_bool b))
  | VInt z =>
      match float_of_Z z with
      | S754_infinity _ => Raise (OverflowError "int too large to convert to float")
      | f => Ok f
      end
  | VFloat f => Ok f
  | VStr s =>
      match float_of_text py s with
      | Some f => Ok f
      | None => Raise (ValueError ("could not convert string to float: " ++ repr_text py s))
      end
  | VBytes b =>
      match float_of_text py b with
      | Some f => Ok f
      | None => Raise (ValueError ("could not convert string to float: " ++ repr_bytes py b))
      end
  | _ =>
      Raise (TypeError ("float() argument must be a string or a real number, not '"
                        ++ type_name v ++ "'"))
  end.

End Runtime.

(** [try: body  except (classes): handler] *)
Definition except_ {A} (classes : list string) (body : Result A) (handler : Result A)
  : Result A :=
  match body with
  | Ok a => Ok a
  | Raise e =>
      if existsb (String.eqb (exn_class e)) classes then handler else Raise e
  end.

(** ** Models of [app/models/workflow.py] *)

(** The columns of a trigger that the engine reads.  [conditions] is the
    nullable JSON column; its schema admits any mapping. *)
Record Trigger : Type := mkTrigger {
  trigger_source : string;
  trigger_event_type : string;
  trigger_conditions : option Dict
}.

Record Action : Type := mkAction {
  action_target : string;
  action_type : string;
  action_parameters : option Dict;
  action_sort_order : Z
}.

(** [triggers] and [actions] are the relationship lists, loaded in the
    order of their [sort_order] column. *)
Record Workflow : Type := mkWorkflow {
  workflow_name : string;
  workflow_enabled : bool;
  workflow_triggers : list Trigger;
  workflow_actions : list Action
}.

(** ** [app/engine/triggers.py] *)

Module TriggerHandler.

(** The loop of [_resolve_field] over the remaining segments. *)
Fixpoint resolve_parts (parts : list string) (current : Value) : Result Value :=
  match parts with
  | [] => Ok current
  | part :: rest =>
      match current with
      | VDict d => resolve_parts rest (PyDict.get d part VNone)
      | VList l =>
          if isdigit part then
            bindR (int_of_digits part) (fun idx =>
              resolve_parts rest
                (if idx <? Z.of_nat (List.length l)
                 then nth (Z.to_nat idx) l VNone
                 else VNone))
          else Ok VNone
      | _ => Ok VNone
      end
  end.

(** [_resolve_field(field_path, data)]: the value at a dot-separated
    path, [None] for a path that leads nowhere. *)
Definition _resolve_field (field_path : string) (data : Value) : Result Value :=
  resolve_parts (split_dot field_path) data.

(** [all(f(c) for c in cs)]: stops at the first false, and at the first
    exception. *)
Fixpoint py_all {A} (f : A -> Result bool) (cs : list A) : Result bool :=
  match cs with
  | [] => Ok true
  | c :: rest =>
      match f c with
      | Ok true => py_all f rest
      | Ok false => Ok false
      | Raise e => Raise e
      end
  end.

(** [any(f(c) for c in cs)]: stops at the first true, and at the first
    exception. *)
Fixpoint py_any {A} (f : A -> Result bool) (cs : list A) : Result bool :=
  match cs with
  | [] => Ok false
  | c :: rest =>
      match f c with
      | Ok true => Ok true
      | Ok false => py_any f rest
      | Raise e => Raise e
      end
  end.

Section WithRuntime.

Variable py : Builtins.

Definition operator_is (operator : Value) (name : string) : bool :=
  py_eq operator (VStr name).

(** [_compare(operator, actual, expected)] *)
Definition _compare (operator actual expected : Value) : Result bool :=
  if operator_is operator "eq" then Ok (py_eq actual expected)
  else if operator_is operator "ne" then Ok (negb (py_eq actual expected))
  else if operator_is operator "contains" then
    match actual with
    | VStr text => Ok (is_substring (py_str py expected) text)
    | VList items => Ok (py_in_list expected items)
    | _ => Ok false
    end
  else if operator_is operator "in" then
    match expected with
    | VList items => Ok (py_in_list actual items)
    | _ => Ok false
    end
  else if operator_is operator "matches" then
    match actual, expected with
    | VStr text, VStr pattern => re_search py pattern text
    | _, _ => Ok false
    end
  else if operator_is operator "gt" then
    except_ ["TypeError"; "ValueError"]
      (bindR (py_float py actual) (fun a =>
       bindR (py_float py expected) (fun e => Ok (SFltb e a))))
      (Ok false)
  else if operator_is operator "lt" then
    except_ ["TypeError"; "ValueError"]
      (bindR (py_float py actual) (fun a =>
       bindR (py_float py expected) (fun e => Ok (SFltb a e))))
      (Ok false)
  else if operator_is operator "exists" then
    Ok (Bool.eqb (negb (is_none actual)) (truthy expected))
  else Ok false.

(** The leaf branch of [_evaluate_conditions], for a mapping with
    neither an ["all"] nor an ["any"] key.  A [field] that is not text
    fails at [field_path.split]. *)
Definition evaluate_leaf (conditions : Dict) (event_data : Value) : Result bool :=
  let field := PyDict.get conditions "field" VNone in
  let operator := PyDict.get conditions "operator" (VStr "eq") in
  let expected := PyDict.get conditions "value" VNone in
  match field with
  | VNone => Ok true
  | VStr field_path =>
      bindR (_resolve_field field_path event_data) (fun actual =>
        _compare operator actual expected)
  | VBytes _ => Raise (TypeError "a bytes-like object is required, not 'str'")
  | _ => Raise (no_attribute field "split")
  end.

(** What [_evaluate_conditions] does with a condition that is not a
    mapping: the tests ["all" in conditions] and ["any" in conditions]
    are a membership test on a list and a substring test on text, and
    fail on anything else; the subscript or the [get] that follows
    fails. *)
Definition evaluate_non_mapping (conditions : Value) : Result bool :=
  match conditions with
  | VList items =>
      if py_in_list (VStr "all") items || py_in_list (VStr "any") items
      then Raise (TypeError "list indices must be integers or slices, not str")
      else Raise (no_attribute conditions "get")
  | VStr text =>
      if is_substring "all" text || is_substring "any" text
      then Raise (TypeError "string indices must be integers, not 'str'")
      else Raise (no_attribute conditions "get")
  | VBytes _ => Raise (TypeError "a bytes-like object is required, not 'str'")
  | _ =>
      Raise (TypeError ("argument of type '" ++ type_name conditions
                        ++ "' is not iterable"))
  end.

Definition not_iterable (v : Value) : Exn :=
  TypeError ("'" ++ type_name v ++ "' object is not iterable").

Definition text_of_char (c : ascii) : Value := VStr (String c "").

Definition int_of_byte (c : ascii) : Value := VInt (Z.of_nat (nat_of_ascii c)).

(** [_evaluate_conditions(conditions, event_data)].  The sub-conditions
    of a composite are whatever iterating the stored value yields: the
    items of a list, the characters of a text, the keys of a mapping,
    the byte values of bytes. *)
Fixpoint _evaluate_conditions (conditions : Value) (event_data : Value)
    {struct conditions} : Result bool :=
  match conditions with
  | VDict d =>
      PyDict.case "all"
        (fun subs =>
           match subs with
           | VList cs => py_all (fun c => _evaluate_conditions c event_data) cs
           | VStr text => py_all evaluate_non_mapping (map text_of_char (chars text))
           | VBytes b => py_all evaluate_non_mapping (map int_of_byte (chars b))
           | VDict items => py_all evaluate_non_mapping (map VStr (PyDict.keys items))
           | _ => Raise (not_iterable subs)
           end)
        (PyDict.case "any"
           (fun subs =>
              match subs with
              | VList cs => py_any (fun c => _evaluate_conditions c event_data) cs
              | VStr text => py_any evaluate_non_mapping (map text_of_char (chars text))
              | VBytes b => py_any evaluate_non_mapping (map int_of_byte (chars b))
              | VDict items => py_any evaluate_non_mapping (map VStr (PyDict.keys items))
              | _ => Raise (not_iterable subs)
              end)
           (evaluate_leaf d event_data) d) d
  | _ => evaluate_non_mapping conditions
  end.

(** [evaluate_trigger(trigger, event_data)] *)
Definition evaluate_trigger (trigger : Trigger) (event_data : Dict) : Result bool :=
  let event_source := PyDict.get event_data "source" (VStr "") in
  if truthy event_source && negb (py_eq event_source (VStr (trigger_source trigger)))
  then Ok false
  else
    let event_type := PyDict.get event_data "event_type" (VStr "") in
    if truthy event_type && negb (py_eq event_type (VStr (trigger_event_type trigger)))
    then Ok false
    else
      let conditions : Dict :=
        match trigger_conditions trigger with
        | Some d => d
        | None => []
        end in
      match conditions with
      | [] => Ok true
      | _ => _evaluate_conditions (VDict conditions) (VDict event_data)
      end.

End WithRuntime.

End TriggerHandler.

(** ** The outside world of a run *)

(** The operations of the two connectors that the actions call, with the
    arguments they are called with, and the closing of a connector. *)
Inductive Call : Type :=
| CreateVoucher (voucher_data : Dict)
| UploadDocument (file_content filename title correspondent document_type tags : Value)
| SearchContacts (name : Value)
| CreateContact (contact_data : Dict)
| AddTagToDocument (document_id tag_id : Value)
| DownloadDocument (document_id : Value)
| GetDocument (document_id : Value)
| ClosePaperless
| CloseLexoffice.

(** The state a run changes: the calls made so far, oldest first, and
    which connectors the action runner has created ([_paperless] and
    [_lexoffice] are [None] until first use). *)
Record World : Type := mkWorld {
  calls : list Call;
  paperless_open : bool;
  lexoffice_open : bool
}.

Definition UUID : Type := string.

(** What a run reads from outside: the outcome of each connector operation
    (a response, or the exception the connector raises), which may depend
    on every call made before it; the current UTC date in [%Y-%m-%d]
    form; the workflow table; and how the store takes a row whose foreign
    key names no row: [foreign_key_violation] is [Some e] for a store that
    enforces foreign keys, as PostgreSQL, the configured one, does, [e]
    being the [IntegrityError] that the flush of such a row raises, and
    [None] for a store that does not enforce them.  The store works
    otherwise: the flush of a row whose foreign key names a row succeeds,
    and so does the closing of a connector. *)
Record Services : Type := mkServices {
  respond : list Call -> Call -> Result Value;
  utc_today : list Call -> string;
  load_workflow : UUID -> option Workflow;
  foreign_key_violation : option Exn
}.

(** Computations that may raise and that change the world; the effects
    of a computation that raises stay. *)
Definition M (A : Type) : Type := World -> Result A * World.

Definition ret {A} (a : A) : M A := fun w => (Ok a, w).

Definition raise {A} (e : Exn) : M A := fun w => (Raise e, w).

Definition bind {A B} (m : M A) (k : A -> M B) : M B :=
  fun w =>
    match m w with
    | (Ok a, w') => k a w'
    | (Raise e, w') => (Raise e, w')
    end.

Definition lift {A} (r : Result A) : M A := fun w => (r, w).

(** [try: body  except Exception as exc: handler(exc)].  Every exception
    of the model is an [Exception]; cancellation and interrupts, which are
    not, are left out. *)
Definition try_except {A} (body : M A) (handler : Exn -> M A) : M A :=
  fun w =>
    match body w with
    | (Ok a, w') => (Ok a, w')
    | (Raise e, w') => handler e w'
    end.

(** [try: body  finally: cleanup] *)
Definition try_finally {A} (body : M A) (cleanup : M unit) : M A :=
  fun w =>
    match body w with
    | (r, w') =>
        match cleanup w' with
        | (Ok _, w'') => (r, w'')
        | (Raise e, w'') => (Raise e, w'')
        end
    end.

Declare Scope action_scope.
Delimit Scope action_scope with action.
Notation "x <- m ;; k" := (bind m (fun x => k))
  (at level 61, m at next level, right associativity) : action_scope.
Notation "m ;;; k" := (bind m (fun _ => k))
  (at level 61, right associativity) : action_scope.

(** [v.get(key, default)] on a value of any type *)
Definition py_get (v : Value) (key : string) (default : Value) : Result Value :=
  match v with
  | VDict d => Ok (PyDict.get d key default)
  | _ => Raise (no_attribute v "get")
  end.

(** [len(v)] *)
Definition py_len (v : Value) : Result Z :=
  match v with
  | VStr s => Ok (Z.of_nat (String.length s))
  | VBytes b => Ok (Z.of_nat (String.length b))
  | VList l => Ok (Z.of_nat (List.length l))
  | VDict d => Ok (Z.of_nat (List.length d))
  | _ => Raise (TypeError ("object of type '" ++ type_name v ++ "' has no len()"))
  end.

(** [v[0]] for a truthy [v] *)
Definition py_first (v : Value) : Result Value :=
  match v with
  | VList (x :: _) => Ok x
  | VStr (String c _) => Ok (VStr (String c ""))
  | VBytes (String c _) => Ok (VInt (Z.of_nat (nat_of_ascii c)))
  | VList [] => Raise (mkExn "IndexError" "list index out of range")
  | VStr EmptyString => Raise (mkExn "IndexError" "string index out of range")
  | VBytes EmptyString => Raise (mkExn "IndexError" "index out of range")
  | VDict _ => Raise (KeyError "0")
  | _ => Raise (TypeError ("'" ++ type_name v ++ "' object is not subscriptable"))
  end.

(** [action.parameters or {}] *)
Definition parameters_or_empty (action : Action) : Dict :=
  match action_parameters action with
  | Some d => d
  | None => []
  end.

(** ** [app/engine/actions.py] *)

Module ActionRunner.

Local Open Scope action_scope.

(** A handler receives the action and the shared context and gives its
    result mapping; the context is a mutable mapping, so the handler's
    changes to it are returned with the result. *)
Definition Handler : Type := Action -> Dict -> M (Dict * Dict).

(** [_get_paperless()]: creates the connector on first use; no request
    is sent. *)
Definition _get_paperless : M unit :=
  fun w => (Ok tt, mkWorld (calls w) true (lexoffice_open w)).

Definition _get_lexoffice : M unit :=
  fun w => (Ok tt, mkWorld (calls w) (paperless_open w) true).

Definition record_call (c : Call) (w : World) : World :=
  mkWorld (calls w ++ [c]) (paperless_open w) (lexoffice_open w).

(** [close()]: closes the connectors that were created. *)
Definition close : M unit :=
  fun w =>
    let w1 := if paperless_open w then record_call ClosePaperless w else w in
    let w2 := if lexoffice_open w1 then record_call CloseLexoffice w1 else w1 in
    (Ok tt, w2).

Section WithServices.

Variable py : Builtins.
Variable svc : Services.

(** An awaited connector operation. *)
Definition perform (c : Call) : M Value :=
  fun w => (respond svc (calls w) c, record_call c w).

Definition today : M string :=
  fun w => (Ok (utc_today svc (calls w)), w).

Definition _create_lexoffice_voucher : Handler := fun action context =>
  _get_lexoffice ;;;
  let params := parameters_or_empty action in
  now <- today ;;
  let voucher_data : Dict :=
    [ ("type", PyDict.get params "voucher_type" (VStr "purchaseinvoice"));
      ("voucherNumber", PyDict.get params "voucher_number" (VStr ""));
      ("voucherDate", PyDict.get params "voucher_date" (VStr now));
      ("totalGrossAmount",
        PyDict.get params "total_gross_amount"
          (PyDict.get context "total_gross_amount" (VInt 0)));
      ("taxType", PyDict.get params "tax_type" (VStr "gross"));
      ("voucherItems", PyDict.get params "voucher_items" (VList [])) ] in
  let contact_id :=
    py_or (PyDict.get params "contact_id" VNone)
          (PyDict.get context "lexoffice_contact_id" VNone) in
  let voucher_data :=
    if truthy contact_id then PyDict.set voucher_data "contactId" contact_id
    else voucher_data in
  result <- perform (CreateVoucher voucher_data) ;;
  _ <- lift (py_get result "id" VNone) ;;
  ret ([("voucher", result)], context).

Definition _upload_to_paperless : Handler := fun action context =>
  _get_paperless ;;;
  let params := parameters_or_empty action in
  let file_content := PyDict.get context "file_content" (VBytes "") in
  let filename :=
    PyDict.get params "filename" (PyDict.get context "filename" (VStr "document.pdf")) in
  let title :=
    py_or (PyDict.get params "title" VNone) (PyDict.get context "title" VNone) in
  let correspondent :=
    py_or (PyDict.get params "correspondent_id" VNone)
          (PyDict.get context "correspondent_id" VNone) in
  let document_type :=
    py_or (PyDict.get params "document_type_id" VNone)
          (PyDict.get context "document_type_id" VNone) in
  let tags :=
    py_or (PyDict.get params "tag_ids" VNone) (PyDict.get context "tag_ids" VNone) in
  result <- perform (UploadDocument file_content filename title correspondent
                                    document_type tags) ;;
  ret ([("upload", result)], context).

Definition _sync_contact : Handler := fun action context =>
  _get_paperless ;;;
  _get_lexoffice ;;;
  let params := parameters_or_empty action in
  let correspondent_name :=
    PyDict.get params "correspondent_name"
      (PyDict.get context "correspondent_name" (VStr "")) in
  if negb (truthy correspondent_name) then
    ret ([("synced", VBool false);
          ("reason", VStr "No correspondent name provided")], context)
  else
    search_result <- perform (SearchContacts correspondent_name) ;;
    contacts <- lift (py_get search_result "content" (VList [])) ;;
    if truthy contacts then
      contact <- lift (py_first contacts) ;;
      contact_id <- lift (py_get contact "id" (VStr "")) ;;
      ret ([("synced", VBool true); ("lexoffice_contact_id", contact_id);
            ("created", VBool false)], context)
    else
      new_contact <- perform (CreateContact
        [ ("version", VInt 0);
          ("roles", VDict [("customer", VDict [])]);
          ("company", VDict [("name", correspondent_name)]) ]) ;;
      contact_id <- lift (py_get new_contact "id" (VStr "")) ;;
      ret ([("synced", VBool true); ("lexoffice_contact_id", contact_id);
            ("created", VBool true)], context).

Definition not_tagged : Dict :=
  [("tagged", VBool false); ("reason", VStr "Missing document_id or tag_id")].

Definition _set_tag : Handler := fun action context =>
  _get_paperless ;;;
  let params := parameters_or_empty action in
  let document_id :=
    py_or (PyDict.get params "document_id" VNone)
          (PyDict.get context "document_id" (VInt 0)) in
  let tag_id := PyDict.get params "tag_id" (VInt 0) in
  if negb (truthy document_id) || negb (truthy tag_id) then
    ret (not_tagged, context)
  else
    result <- perform (AddTagToDocument document_id tag_id) ;;
    ret ([("tagged", VBool true); ("document", result)], context).

Definition _download_document : Handler := fun action context =>
  _get_paperless ;;;
  let params := parameters_or_empty action in
  let document_id :=
    py_or (PyDict.get params "document_id" VNone)
          (PyDict.get context "document_id" (VInt 0)) in
  if negb (truthy document_id) then
    ret ([("downloaded", VBool false); ("reason", VStr "Missing document_id")],
         context)
  else
    content <- perform (DownloadDocument document_id) ;;
    doc_meta <- perform (GetDocument document_id) ;;
    filename <- lift (py_get doc_meta "original_file_name"
                        (VStr ("document_" ++ py_str py document_id ++ ".pdf"))) ;;
    let context := PyDict.set context "file_content" content in
    let context := PyDict.set context "filename" filename in
    size <- lift (py_len content) ;;
    ret ([("downloaded", VBool true); ("filename", filename); ("size", VInt size)],
         context).

(** The registry [_action_map], in the order it is written. *)
Definition _action_map : list (string * Handler) :=
  [ ("create_lexoffice_voucher", _create_lexoffice_voucher);
    ("upload_to_paperless", _upload_to_paperless);
    ("sync_contact", _sync_contact);
    ("set_tag", _set_tag);
    ("download_document", _download_document) ].

Fixpoint find_handler (name : string) (registry : list (string * Handler))
  : option Handler :=
  match registry with
  | [] => None
  | (k, h) :: rest => if String.eqb k name then Some h else find_handler name rest
  end.

(** [run_action(action, context)] *)
Definition run_action : Handler := fun action context =>
  match find_handler (action_type action) _action_map with
  | None => raise (ValueError ("Unknown action type: " ++ action_type action))
  | Some handler => handler action context
  end.

End WithServices.

End ActionRunner.

(** ** [app/models/log.py] and [app/engine/executor.py] *)

Record WorkflowLog : Type := mkWorkflowLog {
  log_workflow_id : UUID;
  log_status : string;
  log_input_data : option Dict;
  log_output_data : option Dict;
  log_error_message : option string
}.

Module WorkflowExecutor.

Local Open Scope action_scope.

(** [sorted(actions, key=lambda a: a.sort_order)]: a stable sort. *)
Fixpoint insert_by_sort_order (a : Action) (sorted : list Action) : list Action :=
  match sorted with
  | [] => [a]
  | b :: rest =>
      if action_sort_order a <=? action_sort_order b then a :: b :: rest
      else b :: insert_by_sort_order a rest
  end.

Definition sorted_by_sort_order (actions : list Action) : list Action :=
  fold_right insert_by_sort_order [] actions.

Definition with_outcome (log_entry : WorkflowLog) (status : string)
    (output_data : Dict) : WorkflowLog :=
  mkWorkflowLog (log_workflow_id log_entry) status (log_input_data log_entry)
                (Some output_data) (log_error_message log_entry).

Definition with_error (log_entry : WorkflowLog) (message : string) : WorkflowLog :=
  mkWorkflowLog (log_workflow_id log_entry) "error" (log_input_data log_entry)
                (log_output_data log_entry) (Some message).

Section WithServices.

Variable py : Builtins.
Variable svc : Services.

(** The loop over the triggers: the first trigger that matches ends
    it. *)
Fixpoint trigger_matched (triggers : list Trigger) (trigger_data : Dict)
  : Result bool :=
  match triggers with
  | [] => Ok false
  | trigger :: rest =>
      match TriggerHandler.evaluate_trigger py trigger trigger_data with
      | Ok true => Ok true
      | Ok false => trigger_matched rest trigger_data
      | Raise e => Raise e
      end
  end.

Definition result_entry (action : Action) (action_result : Dict) : Value :=
  VDict [("action_type", VStr (action_type action)); ("result", VDict action_result)].

(** The loop over the sorted actions, from a context and the results
    collected so far. *)
Fixpoint run_actions (actions : list Action) (context : Dict)
    (action_results : list Value) : M (Dict * list Value) :=
  match actions with
  | [] => ret (context, action_results)
  | action :: rest =>
      r <- ActionRunner.run_action py svc action context ;;
      let (action_result, context) := r in
      run_actions rest (PyDict.update context action_result)
                  (action_results ++ [result_entry action action_result])
  end.

(** The body of the [try] block.  The log entry is changed only by the
    last statements of a path, after everything that can raise, so the
    block gives the changed entry and an exception leaves the entry
    as it was created. *)
Definition try_block (workflow_id : UUID) (trigger_data : Dict)
    (log_entry : WorkflowLog) : M WorkflowLog :=
  match load_workflow svc workflow_id with
  | None => raise (ValueError ("Workflow " ++ workflow_id ++ " not found"))
  | Some workflow =>
      if negb (workflow_enabled workflow) then
        ret (with_outcome log_entry "skipped"
               [("reason", VStr "Workflow is disabled")])
      else
        matched <- lift (trigger_matched (workflow_triggers workflow) trigger_data) ;;
        if negb matched && negb (Nat.eqb (List.length (workflow_triggers workflow)) 0)
        then
          ret (with_outcome log_entry "skipped"
                 [("reason", VStr "No trigger matched")])
        else
          r <- run_actions (sorted_by_sort_order (workflow_actions workflow))
                           trigger_data [] ;;
          ret (with_outcome log_entry "success" [("actions", VList (snd r))])
  end.

(** [self._session.add(log_entry)] and [await self._session.flush()]: the
    log row is inserted.  Its [workflow_id] is a foreign key to the
    workflow table ([app/models/log.py]), so a store that enforces foreign
    keys refuses the row of a workflow that it does not hold. *)
Definition flush_log_entry (log_entry : WorkflowLog) : M unit :=
  match foreign_key_violation svc, load_workflow svc (log_workflow_id log_entry) with
  | Some e, None => raise e
  | _, _ => ret tt
  end.

(** [execute_workflow(workflow_id, trigger_data)]: the log row is created
    and flushed before the [try], so what the flush raises is neither
    caught nor logged, and the action runner is not closed for it. *)
Definition execute_workflow (workflow_id : UUID) (trigger_data : Dict)
  : M WorkflowLog :=
  let log_entry := mkWorkflowLog workflow_id "running" (Some trigger_data) None None in
  flush_log_entry log_entry ;;;
  try_finally
    (try_except
       (try_block workflow_id trigger_data log_entry)
       (fun exc => ret (with_error log_entry (exn_message exc))))
    ActionRunner.close.

End WithServices.

End WorkflowExecutor.

(** ** A runtime and services to run the engine on examples *)

Module Sample.

Definition is_meta_char (c : ascii) : bool :=
  existsb (Ascii.eqb c) (chars ".^$*+?{}[]\|()").

(** A runtime that knows the plain inputs only and rejects the rest: a
    pattern without metacharacters is searched as a literal, a run of
    decimal digits is converted to the float of its value, text is
    quoted as it is. *)
Definition runtime : Builtins :=
  mkBuiltins
    (fun pattern text =>
       if existsb is_meta_char (chars pattern)
       then Raise (mkExn "error" "pattern outside the plain fragment")
       else Ok (is_substring pattern text))
    (fun text => if is_decimal text then Some (float_of_Z (decimal_value text)) else None)
    (fun f =>
       match f with
       | S754_zero s => if s then "-0.0" else "0.0"
       | S754_infinity s => if s then "-inf" else "inf"
       | S754_nan => "nan"
       | S754_finite _ _ _ => "<float>"
       end)
    (fun text => "'" ++ text ++ "'")
    (fun b => "b'" ++ b ++ "'").

Definition tag_invoices : Action :=
  mkAction "paperless" "set_tag"
           (Some [("document_id", VInt 42); ("tag_id", VInt 7)]) 0.

Definition fetch_file : Action :=
  mkAction "paperless" "download_document" None 1.

Definition tag_again : Action :=
  mkAction "paperless" "set_tag" (Some [("tag_id", VInt 8)]) 2.

(** A tag action that names the document and leaves the tag to the
    context. *)
Definition tag_from_context : Action :=
  mkAction "paperless" "set_tag" (Some [("document_id", VInt 42)]) 0.

Definition on_document_created : Trigger :=
  mkTrigger "paperless" "document_created"
            (Some [("field", VStr "document_id"); ("operator", VStr "eq");
                   ("value", VInt 42)]).

(** Actions are stored out of order, to be sorted by the executor. *)
Definition workflow : Workflow :=
  mkWorkflow "tag and fetch" true [on_document_created]
             [tag_again; tag_invoices; fetch_file].

Definition workflow_id : UUID := "0b0f7c1e-58a4-4c55-9d0e-3f2a6a1d9c11".

(** A workflow without triggers. *)
Definition untriggered : Workflow :=
  mkWorkflow "tag everything" true [] [tag_invoices].

Definition untriggered_id : UUID := "5d2c9a40-1c3e-4b7a-8f21-7e6b0c4d2a95".

(** What the session raises at the flush of a log row whose workflow the
    table does not hold; the text stands for the one of the database
    driver. *)
Definition integrity_error : Exn :=
  mkExn "IntegrityError"
        "violates foreign key constraint workflow_logs_workflow_id_fkey".

(** Paperless accepts the tagging and is unreachable for downloads;
    Lexoffice is unreachable; the store enforces foreign keys. *)
Definition services : Services :=
  mkServices
    (fun _ call =>
       match call with
       | AddTagToDocument document_id tag_id =>
           Ok (VDict [("id", document_id); ("tags", VList [tag_id])])
       | _ => Raise (mkExn "ConnectError" "All connection attempts failed")
       end)
    (fun _ => "2024-05-17")
    (fun id =>
       if String.eqb id workflow_id then Some workflow
       else if String.eqb id untriggered_id then Some untriggered
       else None)
    (Some integrity_error).

Definition event : Dict :=
  [("source", VStr "paperless"); ("event_type", VStr "document_created");
   ("document_id", VInt 42)].

Definition fresh : World := mkWorld [] false false.

End Sample.

(** A world with the calls made so far and no connector created, as a new
    executor finds it. *)
Definition new_runner (made : list Call) : World := mkWorld made false false.

(** ** [app/engine/scheduler.py] *)

Module Scheduler.

(** The event of a scheduled run. *)
Definition trigger_data : Dict :=
  [("source", VStr "schedule"); ("event_type", VStr "scheduled_run")].

(** [[t for t in workflow.triggers if t.source == "schedule"]] *)
Definition schedule_triggers (workflow : Workflow) : list Trigger :=
  filter (fun t => String.eqb (trigger_source t) "schedule") (workflow_triggers workflow).

Section WithServices.

Variable py : Builtins.
Variable svc : Services.

(** The loop of [run_scheduled_workflows] over the rows of its query, the
    enabled workflows that have a trigger, each with its id.  Every
    workflow gets an executor of its own, and with it a new action
    runner. *)
Fixpoint sweep (rows : list (UUID * Workflow)) (executed : Z) : M Z :=
  match rows with
  | [] => ret executed
  | (workflow_id, workflow) :: rest =>
      match schedule_triggers workflow with
      | [] => sweep rest executed
      | _ =>
          fun w =>
            match WorkflowExecutor.execute_workflow py svc workflow_id trigger_data
                    (new_runner (calls w)) with
            | (Ok _, w') => sweep rest (executed + 1) w'
            | (Raise e, w') => (Raise e, w')
            end
      end
  end.

(** [run_scheduled_workflows(ctx)], given the rows of its query. *)
Definition run_scheduled_workflows (rows : list (UUID * Workflow)) : M Z :=
  sweep rows 0.

End WithServices.

End Scheduler.

(** ** [app/api/webhooks.py] *)

Module Webhooks.

(** The event that [_dispatch_event] hands to the executor:
    [{"source": source, "event_type": event_type, **event_data}]. *)
Definition dispatch_trigger_data (source : string) (event_type : Value)
    (event_data : Dict) : Dict :=
  PyDict.update [("source", VStr source); ("event_type", event_type)] event_data.

(** The event that [paperless_webhook] makes of the decoded body. *)
Definition paperless_trigger_data (payload : Value) : Result Dict :=
  match payload with
  | VDict body =>
      let event_type :=
        PyDict.get body "event" (PyDict.get body "event_type" (VStr "document_created")) in
      let document_id :=
        py_or (PyDict.get body "document_id" VNone) (PyDict.get body "id" VNone) in
      Ok (dispatch_trigger_data "paperless" event_type
            [("document_id", document_id); ("payload", payload)])
  | _ => Raise (no_attribute payload "get")
  end.

(** The event that [lexoffice_webhook] makes of the decoded body. *)
Definition lexoffice_trigger_data (payload : Value) : Result Dict :=
  match payload with
  | VDict body =>
      let event_type := PyDict.get body "eventType" (VStr "unknown") in
      let resource_id := PyDict.get body "resourceId" VNone in
      Ok (dispatch_trigger_data "lexoffice" event_type
            [("resource_id", resource_id);
             ("organization_id", PyDict.get body "organizationId" VNone);
             ("payload", payload)])
  | _ => Raise (no_attribute payload "get")
  end.

End Webhooks.

(** ** [app/connectors/paperless.py] *)

Module PaperlessConnector.

(** The requests of the document operations, and what the server and the
    decoding of its response give for a request after the requests sent
    before it: the decoded body, or the exception of the client, of
    [raise_for_status] or of [json]. *)
Inductive Request : Type :=
| Get (url : string)
| Patch (url : string) (json : Dict).

Definition Server : Type := list Request -> Request -> Result Value.

Definition byte_in (z : Z) (b : string) : Result bool :=
  if (0 <=? z) && (z <? 256)
  then Ok (existsb (fun c => Z.of_nat (nat_of_ascii c) =? z) (chars b))
  else Raise (ValueError "byte must be in range(0, 256)").

(** [x in container] *)
Definition py_contains (x container : Value) : Result bool :=
  match container with
  | VList items => Ok (py_in_list x items)
  | VStr text =>
      match x with
      | VStr needle => Ok (is_substring needle text)
      | _ => Raise (TypeError ("'in <string>' requires string as left operand, not "
                               ++ type_name x))
      end
  | VDict d =>
      match x with
      | VStr key =>
          Ok (match PyDict.lookup key d with
              | Some _ => true
              | None => false
              end)
      | VList _ | VDict _ =>
          Raise (TypeError ("unhashable type: '" ++ type_name x ++ "'"))
      | _ => Ok false
      end
  | VBytes b =>
      match x with
      | VInt z => byte_in z b
      | VBool t => byte_in (Z_of_bool t) b
      | VBytes needle => Ok (is_substring needle b)
      | _ => Raise (TypeError ("a bytes-like object is required, not '"
                               ++ type_name x ++ "'"))
      end
  | _ =>
      Raise (TypeError ("argument of type '" ++ type_name container
                        ++ "' is not iterable"))
  end.

(** [target.append(x)], giving the list after it *)
Definition py_append (target x : Value) : Result Value :=
  match target with
  | VList items => Ok (VList (items ++ [x]))
  | _ => Raise (no_attribute target "append")
  end.

Section WithServer.

Variable py : Builtins.
Variable server : Server.

Definition document_url (document_id : Value) : string :=
  "/api/documents/" ++ py_str py document_id ++ "/".

(** [get_document(document_id)], from the requests sent so far *)
Definition get_document (document_id : Value) (sent : list Request)
  : Result Value * list Request :=
  let request := Get (document_url document_id) in
  (server sent request, (sent ++ [request])%list).

(** [update_document(document_id, data)] *)
Definition update_document (document_id : Value) (data : Dict) (sent : list Request)
  : Result Value * list Request :=
  let request := Patch (document_url document_id) data in
  (server sent request, (sent ++ [request])%list).

(** [add_tag_to_document(document_id, tag_id)] *)
Definition add_tag_to_document (document_id tag_id : Value) (sent : list Request)
  : Result Value * list Request :=
  match get_document document_id sent with
  | (Raise e, sent) => (Raise e, sent)
  | (Ok doc, sent) =>
      match py_get doc "tags" (VList []) with
      | Raise e => (Raise e, sent)
      | Ok current_tags =>
          match py_contains tag_id current_tags with
          | Raise e => (Raise e, sent)
          | Ok present =>
              match (if negb present then py_append current_tags tag_id
                     else Ok current_tags) with
              | Raise e => (Raise e, sent)
              | Ok current_tags =>
                  update_document document_id [("tags", current_tags)] sent
              end
          end
      end
  end.

End WithServer.

End PaperlessConnector.

(** ** Paging of the list endpoints ([app/api/workflows.py], [app/api/connectors.py],
    [app/api/mappings.py], [app/api/logs.py]) *)

Module Paging.

(** [offset = (page - 1) * page_size] *)
Definition offset (page page_size : Z) : Z := (page - 1) * page_size.

(** [pages = (total + page_size - 1) // page_size if total else 0] *)
Definition pages (total page_size : Z) : Z :=
  if total =? 0 then 0 else (total + page_size - 1) / page_size.

End Paging.

(** ** Notions of the specification *)

(** The data of the field-resolution examples: [{"a": {"b": [10, 20]}}]. *)
Definition nested_example : Value :=
  VDict [("a", VDict [("b", VList [VInt 10; VInt 20])])].

(** The text of the one character U+00B2, superscript two. *)
Definition superscript_two : string := String "178"%char "".

(** The gate on the event field [key] lets the event through: the field is
    absent, or its value is falsy, or it equals the trigger's. *)
Definition gate_passes (key expected : string) (event_data : Dict) : Prop :=
  match PyDict.lookup key event_data with
  | None => True
  | Some v => truthy v = false \/ py_eq v (VStr expected) = true
  end.

(** The tag action as the specification words it, with each of the two
    identifiers read from the parameters and, failing that, from the
    context.  It differs from [ActionRunner._set_tag] in the reading of
    the tag id only. *)
Definition set_tag_as_specified (svc : Services) : ActionRunner.Handler :=
  fun action context =>
    (ActionRunner._get_paperless ;;;
     let params := parameters_or_empty action in
     let document_id :=
       py_or (PyDict.get params "document_id" VNone)
             (PyDict.get context "document_id" (VInt 0)) in
     let tag_id :=
       py_or (PyDict.get params "tag_id" VNone)
             (PyDict.get context "tag_id" (VInt 0)) in
     if negb (truthy document_id) || negb (truthy tag_id) then
       ret (ActionRunner.not_tagged, context)
     else
       result <- ActionRunner.perform svc (AddTagToDocument document_id tag_id) ;;
       ret ([("tagged", VBool true); ("document", result)], context))%action.

(** ** Notions for the further properties *)



(** The [action_type] recorded in an entry of the log's results. *)
Definition entry_action_type (entry : Value) : Value :=
  match entry with
  | VDict d => PyDict.get d "action_type" VNone
  | _ => VNone
  end.

(** The connector an operation belongs to. *)
Definition is_paperless_call (c : Call) : bool :=
  match c with
  | UploadDocument _ _ _ _ _ _ | AddTagToDocument _ _
  | DownloadDocument _ | GetDocument _ => true
  | _ => false
  end.

Definition is_lexoffice_call (c : Call) : bool :=
  match c with
  | CreateVoucher _ | SearchContacts _ | CreateContact _ => true
  | _ => false
  end.

Definition is_close (c : Call) : bool :=
  match c with
  | ClosePaperless | CloseLexoffice => true
  | _ => false
  end.

(** A workflow that the scheduled sweep executes. *)
Definition has_schedule_trigger (workflow : Workflow) : bool :=
  match Scheduler.schedule_triggers workflow with
  | [] => false
  | _ => true
  end.

(** What a stretch of a run does to the world: it appends the operations
    [ops], none of them a closing; a connector that was created stays
    created, and a connector that an operation of [ops] belongs to has
    been created. *)
Definition grows (w w' : World) (ops : list Call) : Prop :=
  calls w' = (calls w ++ ops)%list /\
  Forall (fun c => is_close c = false) ops /\
  (paperless_open w = true \/ existsb is_paperless_call ops = true ->
   paperless_open w' = true) /\
  (lexoffice_open w = true \/ existsb is_lexoffice_call ops = true ->
   lexoffice_open w' = true).

(** The runs of the executor on a list of workflow ids, one after the
    other on the event of a scheduled run, each with an executor of its
    own: the number of the runs added to [executed], or the exception of
    the first run that raises. *)
Fixpoint runs_in_turn (py : Builtins) (svc : Services) (ids : list UUID)
    (executed : Z) : M Z :=
  match ids with
  | [] => ret executed
  | workflow_id :: rest =>
      fun w =>
        match WorkflowExecutor.execute_workflow py svc workflow_id
                Scheduler.trigger_data (new_runner (calls w)) with
        | (Ok _, w') => runs_in_turn py svc rest (executed + 1) w'
        | (Raise e, w') => (Raise e, w')
        end
  end.

(** The ids of the rows that have a trigger with the source
    ["schedule"], in the order of the rows. *)
Definition scheduled_ids (rows : list (UUID * Workflow)) : list UUID :=
  map fst (filter (fun row => has_schedule_trigger (snd row)) rows).

(** Services over a workflow table. *)
Fixpoint find_workflow (table : list (UUID * Workflow)) (id : UUID) : option Workflow :=
  match table with
  | [] => None
  | (k, workflow) :: rest =>
      if String.eqb k id then Some workflow else find_workflow rest id
  end.

Module Demo.

Definition requires (field : string) : Dict :=
  [("field", VStr field); ("operator", VStr "exists"); ("value", VBool true)].

(** A trigger that needs a [voucher_id] in the event. *)
Definition on_voucher : Trigger :=
  mkTrigger "paperless" "document_created" (Some (requires "voucher_id")).

(** A trigger whose pattern does not compile. *)
Definition on_bad_pattern : Trigger :=
  mkTrigger "paperless" "document_created"
            (Some [("field", VStr "title"); ("operator", VStr "matches");
                   ("value", VStr "(")]).

Definition paused : Workflow :=
  mkWorkflow "paused" false [on_bad_pattern] [Sample.fetch_file].

Definition vouchers_only : Workflow :=
  mkWorkflow "vouchers only" true [on_voucher] [Sample.fetch_file].

Definition broken_trigger : Workflow :=
  mkWorkflow "broken trigger" true [on_voucher; on_bad_pattern] [Sample.tag_invoices].

Definition first_wins : Workflow :=
  mkWorkflow "first wins" true
             [on_voucher; Sample.on_document_created; on_bad_pattern]
             [Sample.tag_invoices].

(** A workflow for the sweep whose trigger has an event type of its
    own. *)
Definition nightly : Workflow :=
  mkWorkflow "nightly" true [mkTrigger "schedule" "daily" None] [Sample.tag_invoices].

Definition table : list (UUID * Workflow) :=
  [ ("paused", paused); ("vouchers-only", vouchers_only);
    ("broken-trigger", broken_trigger); ("first-wins", first_wins);
    ("nightly", nightly) ].

Definition services : Services :=
  mkServices (respond Sample.services) (utc_today Sample.services) (find_workflow table)
             (Some Sample.integrity_error).

(** The same over a store that does not enforce foreign keys. *)
Definition lenient : Services :=
  mkServices (respond Sample.services) (utc_today Sample.services) (find_workflow table)
             None.

Definition titled_event : Dict :=
  [("source", VStr "paperless"); ("event_type", VStr "document_created");
   ("title", VStr "x"); ("document_id", VInt 42)].

(** Services in which both connectors answer. *)
Definition office : Services :=
  mkServices
    (fun _ call =>
       match call with
       | SearchContacts name =>
           Ok (VDict [("content", VList [VDict [("id", VStr "c-17"); ("name", name)]])])
       | CreateContact _ => Ok (VDict [("id", VStr "c-18")])
       | CreateVoucher _ => Ok (VDict [("id", VStr "v-1")])
       | DownloadDocument _ => Ok (VBytes "%PDF-1.7")
       | GetDocument document_id =>
           Ok (VDict [("id", document_id); ("original_file_name", VStr "invoice.pdf")])
       | UploadDocument _ _ _ _ _ _ => Ok (VDict [("status", VStr "accepted")])
       | AddTagToDocument document_id tag_id =>
           Ok (VDict [("id", document_id); ("tags", VList [tag_id])])
       | _ => Ok VNone
       end)
    (fun _ => "2024-05-17")
    (find_workflow table)
    (Some Sample.integrity_error).

Definition sync_acme : Action :=
  mkAction "lexoffice" "sync_contact" (Some [("correspondent_name", VStr "ACME")]) 0.

Definition book_voucher : Action :=
  mkAction "lexoffice" "create_lexoffice_voucher" None 1.

Definition fetch_42 : Action :=
  mkAction "paperless" "download_document" (Some [("document_id", VInt 42)]) 0.

Definition send_copy : Action :=
  mkAction "paperless" "upload_to_paperless" (Some [("title", VStr "copy")]) 1.

Definition archive : Action := mkAction "paperless" "archive_document" None 0.

(** A Paperless server that holds document 42 with the tags 1 and 7 and
    answers a write with what was written. *)
Definition server : PaperlessConnector.Server :=
  fun _ request =>
    match request with
    | PaperlessConnector.Get _ =>
        Ok (VDict [("id", VInt 42); ("tags", VList [VInt 1; VInt 7])])
    | PaperlessConnector.Patch _ json => Ok (VDict json)
    end.

Definition webhook_body : Value :=
  VDict [("event", VStr "document_updated"); ("id", VInt 42);
         ("source", VStr "lexoffice"); ("tags", VList [VInt 1; VInt 7])].

End Demo.

(** * Properties *)

(** ** The condition evaluator and the trigger matcher *)

(** [PyDict.case] is the case analysis of [PyDict.lookup]. *)
Lemma case_lookup {A : Type} (key : string) (found : Value -> A) (missing : A)
    (d : Dict) :
  PyDict.case key found missing d =
  match PyDict.lookup key d with
  | Some v => found v
  | None => missing
  end.
Proof.
  induction d as [| [k v] rest IH]; simpl; [reflexivity |].
  destruct (String.eqb k key); [reflexivity | exact IH].
Qed.

Section TriggerProperties.

Import TriggerHandler.

Variable py : Builtins.

(** A mapping without ["all"] and ["any"] keys is evaluated as a leaf. *)
Lemma evaluate_mapping_as_leaf (d : Dict) (event_data : Value) :
  PyDict.lookup "all" d = None ->
  PyDict.lookup "any" d = None ->
  _evaluate_conditions py (VDict d) event_data = evaluate_leaf py d event_data.
Proof.
  intros Hall Hany.
  cbn [_evaluate_conditions].
  rewrite case_lookup, Hall.
  rewrite case_lookup, Hany.
  reflexivity.
Qed.

(** A mapping with an ["all"] list is the conjunction of its items, in
    order, whatever else it holds. *)
Lemma evaluate_all_list (d : Dict) (cs : list Value) (event_data : Value) :
  PyDict.lookup "all" d = Some (VList cs) ->
  _evaluate_conditions py (VDict d) event_data =
  py_all (fun c => _evaluate_conditions py c event_data) cs.
Proof.
  intros Hall.
  cbn [_evaluate_conditions].
  rewrite case_lookup, Hall.
  reflexivity.
Qed.

Lemma evaluate_any_list (d : Dict) (cs : list Value) (event_data : Value) :
  PyDict.lookup "all" d = None ->
  PyDict.lookup "any" d = Some (VList cs) ->
  _evaluate_conditions py (VDict d) event_data =
  py_any (fun c => _evaluate_conditions py c event_data) cs.
Proof.
  intros Hall Hany.
  cbn [_evaluate_conditions].
  rewrite case_lookup, Hall.
  rewrite case_lookup, Hany.
  reflexivity.
Qed.

(** C7.  A leaf condition without a [field] key, that is a mapping with
    none of the keys ["all"], ["any"] and ["field"], evaluates to true on
    every event payload. *)
Theorem leaf_without_field_passes (d : Dict) (event_data : Value) :
  PyDict.lookup "all" d = None ->
  PyDict.lookup "any" d = None ->
  PyDict.lookup "field" d = None ->
  _evaluate_conditions py (VDict d) event_data = Ok true.
Proof.
  intros Hall Hany Hfield.
  rewrite evaluate_mapping_as_leaf by assumption.
  unfold evaluate_leaf, PyDict.get.
  rewrite Hfield.
  reflexivity.
Qed.

(** C8.  On every event payload the composite [{all: []}] evaluates to
    true and the composite [{any: []}] evaluates to false. *)
Theorem empty_composites (event_data : Value) :
  _evaluate_conditions py (VDict [("all", VList [])]) event_data = Ok true /\
  _evaluate_conditions py (VDict [("any", VList [])]) event_data = Ok false.
Proof.
  split.
  - rewrite evaluate_all_list with (cs := []); reflexivity.
  - rewrite evaluate_any_list with (cs := []); reflexivity.
Qed.

(** With the operator ["eq"], [_compare] is the equality of the two
    values. *)
Lemma compare_eq (actual expected : Value) :
  _compare py (VStr "eq") actual expected = Ok (py_eq actual expected).
Proof. reflexivity. Qed.

(** C10.  A leaf condition with a [field] path and no [operator] key is
    evaluated with the operator ["eq"]: its value is the equality of the
    value resolved at the path with the expected value, and not the false
    of an unknown operator. *)
Theorem leaf_without_operator_is_eq (d : Dict) (field_path : string)
    (event_data : Value) :
  PyDict.lookup "all" d = None ->
  PyDict.lookup "any" d = None ->
  PyDict.lookup "field" d = Some (VStr field_path) ->
  PyDict.lookup "operator" d = None ->
  _evaluate_conditions py (VDict d) event_data =
    bindR (_resolve_field field_path event_data) (fun actual =>
      _compare py (VStr "eq") actual (PyDict.get d "value" VNone)) /\
  forall actual,
    _resolve_field field_path event_data = Ok actual ->
    _evaluate_conditions py (VDict d) event_data =
      Ok (py_eq actual (PyDict.get d "value" VNone)).
Proof.
  intros Hall Hany Hfield Hop.
  assert (Heval : _evaluate_conditions py (VDict d) event_data =
                  bindR (_resolve_field field_path event_data) (fun actual =>
                    _compare py (VStr "eq") actual (PyDict.get d "value" VNone))).
  { rewrite evaluate_mapping_as_leaf by assumption.
    unfold evaluate_leaf, PyDict.get.
    rewrite Hfield, Hop.
    reflexivity. }
  split; [exact Heval |].
  intros actual Hactual.
  rewrite Heval, Hactual.
  apply compare_eq.
Qed.

Example resolve_index_in_range :
  _resolve_field "a.b.1" nested_example = Ok (VInt 20).
Proof. reflexivity. Qed.

Example resolve_index_out_of_range :
  _resolve_field "a.b.5" nested_example = Ok VNone.
Proof. reflexivity. Qed.

Example resolve_missing_key :
  _resolve_field "a.c" nested_example = Ok VNone.
Proof. reflexivity. Qed.

Lemma is_decimal_isdigit (part : string) :
  is_decimal part = true -> isdigit part = true.
Proof.
  unfold is_decimal, isdigit.
  intros H. apply andb_true_iff in H. destruct H as [Hne Hall].
  rewrite Hne. simpl.
  rewrite forallb_forall in *.
  intros c Hc. unfold is_digit_char. rewrite (Hall c Hc). reflexivity.
Qed.

Lemma leading_digits_bound (cs : list ascii) :
  leading_digits cs <= Z.of_nat (List.length cs).
Proof.
  induction cs as [| c cs IH]; cbn [leading_digits List.length].
  - lia.
  - destruct (is_decimal_char c); lia.
Qed.

Lemma chars_length (s : string) : List.length (chars s) = String.length s.
Proof.
  unfold chars. induction s as [| c s IH]; cbn; [reflexivity | now rewrite IH].
Qed.

(** [int] converts a text of decimal digits that is within the limit. *)
Lemma int_of_decimal (part : string) :
  is_decimal part = true ->
  Z.of_nat (String.length part) <= int_max_str_digits ->
  int_of_digits part = Ok (decimal_value part).
Proof.
  intros H Hlen. unfold int_of_digits, is_decimal in *.
  apply andb_true_iff in H. destruct H as [_ Hall].
  pose proof (leading_digits_bound (chars part)) as Hbound.
  rewrite chars_length in Hbound.
  replace (int_max_str_digits <? leading_digits (chars part)) with false
    by (symmetry; apply Z.ltb_ge; lia).
  rewrite Hall. reflexivity.
Qed.

(** A segment of decimal digits within the limit of [int] indexes a
    sequence; an index past the end gives [None]. *)
Lemma decimal_segment_indexes (part : string) (rest : list string) (l : list Value) :
  is_decimal part = true ->
  Z.of_nat (String.length part) <= int_max_str_digits ->
  resolve_parts (part :: rest) (VList l) =
  resolve_parts rest
    (if decimal_value part <? Z.of_nat (List.length l)
     then nth (Z.to_nat (decimal_value part)) l VNone
     else VNone).
Proof.
  intros H Hlen. cbn [resolve_parts].
  rewrite (is_decimal_isdigit _ H).
  rewrite (int_of_decimal _ H Hlen). reflexivity.
Qed.

(** A segment of 4301 decimal digits is more than [int] converts. *)
Example resolve_index_beyond_the_limit :
  resolve_parts [string_of_list_ascii (repeat "1"%char 4301)] (VList [VInt 10]) =
  Raise (ValueError "Exceeds the limit (4300 digits) for integer string conversion: value has 4301 digits; use sys.set_int_max_str_digits() to increase the limit").
Proof. vm_compute. reflexivity. Qed.

(** A segment that [isdigit] rejects resolves to [None] against a
    sequence. *)
Lemma non_digit_segment_on_sequence (part : string) (rest : list string)
    (l : list Value) :
  isdigit part = false ->
  resolve_parts (part :: rest) (VList l) = Ok VNone.
Proof.
  intros H. cbn [resolve_parts]. rewrite H. reflexivity.
Qed.

(** Any segment resolves to [None] against a value that is neither a
    mapping nor a sequence. *)
Lemma segment_on_scalar (part : string) (rest : list string) (current : Value) :
  (forall d, current <> VDict d) ->
  (forall l, current <> VList l) ->
  resolve_parts (part :: rest) current = Ok VNone.
Proof.
  intros Hd Hl.
  destruct current; try reflexivity.
  - exfalso. apply (Hl l). reflexivity.
  - exfalso. apply (Hd d). reflexivity.
Qed.

(** C6.  On [{"a": {"b": [10, 20]}}] the path whose last segment is the
    superscript two does not resolve to a value or to [None]: [isdigit]
    accepts the segment as numeric, [int] rejects it, and the
    [ValueError] leaves [_resolve_field]. *)
Theorem superscript_segment_raises :
  isdigit superscript_two = true /\
  _resolve_field ("a.b." ++ superscript_two) nested_example =
    Raise (ValueError ("invalid literal for int() with base 10: '"
                       ++ superscript_two ++ "'")).
Proof. split; reflexivity. Qed.

(** C4.  The evaluator raises on conditions of the documented shape.  A
    [matches] leaf gives what the regular-expression engine gives for its
    pattern, and the engine raises [re.error] on a pattern that does not
    compile, such as ["("]; a [gt] leaf raises [OverflowError] when the
    resolved value is an integer beyond the range of a float, which the
    handler for [TypeError] and [ValueError] does not catch. *)
Theorem evaluator_raises :
  _evaluate_conditions py
    (VDict [("field", VStr "title"); ("operator", VStr "matches"); ("value", VStr "(")])
    (VDict [("title", VStr "x")])
  = re_search py "(" "x" /\
  _evaluate_conditions py
    (VDict [("field", VStr "amount"); ("operator", VStr "gt"); ("value", VInt 100)])
    (VDict [("amount", VInt (10 ^ 400))])
  = Raise (OverflowError "int too large to convert to float").
Proof.
  split.
  - reflexivity.
  - vm_compute. reflexivity.
Qed.

End TriggerProperties.

Section TriggerGates.

Import TriggerHandler.

Variable py : Builtins.

Lemma gate_passes_test (key expected : string) (event_data : Dict) :
  gate_passes key expected event_data ->
  truthy (PyDict.get event_data key (VStr "")) &&
  negb (py_eq (PyDict.get event_data key (VStr "")) (VStr expected)) = false.
Proof.
  unfold gate_passes, PyDict.get.
  destruct (PyDict.lookup key event_data) as [v |]; [| reflexivity].
  intros [Hfalsy | Hequal].
  - rewrite Hfalsy. reflexivity.
  - rewrite Hequal. apply andb_false_r.
Qed.

(** C5, as the code has it.  A [source] that is present with a truthy
    value and differs from the trigger's stops the match, and so does such
    an [event_type]; when both gates let the event through and the trigger
    has no condition tree ([None] or the empty mapping), the trigger
    matches. *)
Theorem evaluate_trigger_gates (trigger : Trigger) (event_data : Dict) :
  (forall v,
     PyDict.lookup "source" event_data = Some v ->
     truthy v = true ->
     py_eq v (VStr (trigger_source trigger)) = false ->
     evaluate_trigger py trigger event_data = Ok false) /\
  (forall v,
     PyDict.lookup "event_type" event_data = Some v ->
     truthy v = true ->
     py_eq v (VStr (trigger_event_type trigger)) = false ->
     evaluate_trigger py trigger event_data = Ok false) /\
  (gate_passes "source" (trigger_source trigger) event_data ->
   gate_passes "event_type" (trigger_event_type trigger) event_data ->
   trigger_conditions trigger = None \/ trigger_conditions trigger = Some [] ->
   evaluate_trigger py trigger event_data = Ok true).
Proof.
  repeat split.
  - intros v Hv Htruthy Hdiffers.
    unfold evaluate_trigger, PyDict.get.
    rewrite Hv, Htruthy, Hdiffers. reflexivity.
  - intros v Hv Htruthy Hdiffers.
    unfold evaluate_trigger.
    destruct (truthy (PyDict.get event_data "source" (VStr "")) &&
              negb (py_eq (PyDict.get event_data "source" (VStr ""))
                          (VStr (trigger_source trigger)))); [reflexivity |].
    unfold PyDict.get.
    rewrite Hv, Htruthy, Hdiffers. reflexivity.
  - intros Hsource Htype Hnone.
    unfold evaluate_trigger.
    rewrite (gate_passes_test _ _ _ Hsource).
    rewrite (gate_passes_test _ _ _ Htype).
    destruct Hnone as [Hnone | Hnone]; rewrite Hnone; reflexivity.
Qed.

End TriggerGates.

(** The scenario of the specification: the event
    [{source: "paperless", event_type: "document_created", document_id: 42}]
    matches the trigger on [document_id eq 42]. *)
Example document_created_matches :
  TriggerHandler.evaluate_trigger Sample.runtime Sample.on_document_created
    Sample.event = Ok true.
Proof. reflexivity. Qed.

(** [gt] with the text ["abc"] against 5 is false, not an error. *)
Example gt_on_text_is_false :
  TriggerHandler._compare Sample.runtime (VStr "gt") (VStr "abc") (VInt 5) = Ok false.
Proof. reflexivity. Qed.

(** An event whose [source] is present and empty passes the source gate of
    a trigger with another source: the trigger matches. *)
Lemma empty_source_matches :
  PyDict.lookup "source" [("source", VStr "")] = Some (VStr "") /\
  py_eq (VStr "") (VStr "paperless") = false /\
  TriggerHandler.evaluate_trigger Sample.runtime
    (mkTrigger "paperless" "document_created" None) [("source", VStr "")] = Ok true.
Proof. repeat split. Qed.

Lemma evaluate_trigger_gates_witness :
  TriggerHandler.evaluate_trigger Sample.runtime Sample.on_document_created
    [("source", VStr "lexoffice")] = Ok false /\
  TriggerHandler.evaluate_trigger Sample.runtime Sample.on_document_created
    [("event_type", VStr "document_updated")] = Ok false /\
  TriggerHandler.evaluate_trigger Sample.runtime
    (mkTrigger "paperless" "document_created" None) Sample.event = Ok true.
Proof.
  split; [| split].
  - apply (proj1 (evaluate_trigger_gates Sample.runtime Sample.on_document_created
                    [("source", VStr "lexoffice")]) (VStr "lexoffice"));
      reflexivity.
  - apply (proj1 (proj2 (evaluate_trigger_gates Sample.runtime Sample.on_document_created
                    [("event_type", VStr "document_updated")]))
                 (VStr "document_updated"));
      reflexivity.
  - apply (proj2 (proj2 (evaluate_trigger_gates Sample.runtime
                    (mkTrigger "paperless" "document_created" None) Sample.event))).
    + right. reflexivity.
    + right. reflexivity.
    + left. reflexivity.
Defined.

(** ** The executor *)

Section ExecutorProperties.

Import WorkflowExecutor.

Variable py : Builtins.
Variable svc : Services.

(** The store takes the log row of a workflow that it holds, and a store
    that does not enforce foreign keys takes every log row. *)
Lemma flush_accepted (log_entry : WorkflowLog) (w : World) :
  foreign_key_violation svc = None \/
  load_workflow svc (log_workflow_id log_entry) <> None ->
  flush_log_entry svc log_entry w = (Ok tt, w).
Proof.
  unfold flush_log_entry, ret.
  intros [Hlenient | Hknown].
  - rewrite Hlenient. reflexivity.
  - destruct (foreign_key_violation svc); [| reflexivity].
    destruct (load_workflow svc (log_workflow_id log_entry)); [reflexivity |].
    exfalso. apply Hknown. reflexivity.
Qed.

(** The store that enforces foreign keys refuses the log row of a
    workflow that it does not hold. *)
Lemma flush_refused (log_entry : WorkflowLog) (w : World) (e : Exn) :
  foreign_key_violation svc = Some e ->
  load_workflow svc (log_workflow_id log_entry) = None ->
  flush_log_entry svc log_entry w = (Raise e, w).
Proof.
  unfold flush_log_entry, raise. intros Hstrict Hunknown.
  rewrite Hstrict, Hunknown. reflexivity.
Qed.

(** [execute_workflow] in terms of its [try] block, once the log row is
    flushed. *)
Lemma execute_workflow_unfold (workflow_id : UUID) (trigger_data : Dict) (w : World) :
  foreign_key_violation svc = None \/ load_workflow svc workflow_id <> None ->
  let log_entry := mkWorkflowLog workflow_id "running" (Some trigger_data) None None in
  execute_workflow py svc workflow_id trigger_data w =
  match try_block py svc workflow_id trigger_data log_entry w with
  | (Ok l, w') => (Ok l, snd (ActionRunner.close w'))
  | (Raise e, w') =>
      (Ok (with_error log_entry (exn_message e)), snd (ActionRunner.close w'))
  end.
Proof.
  intros Haccepted.
  unfold execute_workflow, bind.
  rewrite flush_accepted by exact Haccepted.
  unfold try_finally, try_except.
  destruct (try_block py svc workflow_id trigger_data _ w) as [[l | e] w'];
    reflexivity.
Qed.

(** [execute_workflow] when the flush of the log row raises. *)
Lemma execute_workflow_refused (workflow_id : UUID) (trigger_data : Dict)
    (w : World) (e : Exn) :
  foreign_key_violation svc = Some e ->
  load_workflow svc workflow_id = None ->
  execute_workflow py svc workflow_id trigger_data w = (Raise e, w).
Proof.
  intros Hstrict Hunknown.
  unfold execute_workflow, bind.
  rewrite flush_refused with (e := e) by assumption.
  reflexivity.
Qed.

(** The loop over a list of actions split in two: the second part runs
    from the context and the results of the first, unless the first
    raises. *)
Lemma run_actions_app (before after : list Action) (context : Dict)
    (action_results : list Value) (w : World) :
  run_actions py svc (before ++ after) context action_results w =
  match run_actions py svc before context action_results w with
  | (Ok (context', action_results'), w') =>
      run_actions py svc after context' action_results' w'
  | (Raise e, w') => (Raise e, w')
  end.
Proof.
  revert context action_results w.
  induction before as [| action before IH]; intros context action_results w.
  - reflexivity.
  - cbn [app run_actions]. unfold bind.
    destruct (ActionRunner.run_action py svc action context w)
      as [[[action_result context1] | e] w1]; [| reflexivity].
    apply IH.
Qed.

(** When an action raises, the loop raises the same exception and leaves
    the world as the failing action left it, whatever follows. *)
Lemma run_actions_raise (action : Action) (after : list Action) (context : Dict)
    (action_results : list Value) (w w' : World) (e : Exn) :
  ActionRunner.run_action py svc action context w = (Raise e, w') ->
  run_actions py svc (action :: after) context action_results w = (Raise e, w').
Proof.
  intros Hraise. cbn [run_actions]. unfold bind. rewrite Hraise. reflexivity.
Qed.

Lemma try_block_status (workflow_id : UUID) (trigger_data : Dict)
    (log_entry l : WorkflowLog) (w w' : World) :
  try_block py svc workflow_id trigger_data log_entry w = (Ok l, w') ->
  log_status l = "skipped" \/ log_status l = "success".
Proof.
  unfold try_block.
  destruct (load_workflow svc workflow_id) as [workflow |];
    [| unfold raise; discriminate].
  destruct (workflow_enabled workflow); cbn [negb].
  - unfold bind, lift.
    destruct (trigger_matched py (workflow_triggers workflow) trigger_data)
      as [matched | e]; [| discriminate].
    destruct (negb matched && _).
    + unfold ret. intros H. inversion H. left. reflexivity.
    + destruct (run_actions py svc _ trigger_data [] w) as [[r | e] w1];
        [| discriminate].
      unfold ret. intros H. inversion H. right. reflexivity.
  - unfold ret. intros H. inversion H. left. reflexivity.
Qed.

(** C2.  [execute_workflow] does not return a log entry for every
    workflow id: on a store that enforces the foreign key of the log row,
    a workflow id that the store does not hold makes the flush before the
    [try] raise.  The exception leaves [execute_workflow] as it is, with
    no log entry and the world untouched, although the [try] block on the
    same id would raise the [ValueError] of the workflow that is not
    found, which the handler would have turned into an [error] entry. *)
Theorem unknown_workflow_raises_at_flush (workflow_id : UUID) (trigger_data : Dict)
    (w : World) (e : Exn) :
  foreign_key_violation svc = Some e ->
  load_workflow svc workflow_id = None ->
  execute_workflow py svc workflow_id trigger_data w = (Raise e, w) /\
  try_block py svc workflow_id trigger_data
            (mkWorkflowLog workflow_id "running" (Some trigger_data) None None) w =
    (Raise (ValueError ("Workflow " ++ workflow_id ++ " not found")), w).
Proof.
  intros Hstrict Hunknown. split.
  - unfold execute_workflow, bind.
    rewrite flush_refused with (e := e) by assumption.
    reflexivity.
  - unfold try_block. rewrite Hunknown. reflexivity.
Qed.


(** C1.  When, in a run that reaches the actions, an action raises after
    the actions before it have completed, the log entry is [error] with
    the exception's message as its error text and without output: the
    results collected from the earlier actions are not in it.  The entry
    and the world are those left by the failing action followed by the
    closing of the connectors, so no later action has run. *)
Theorem failing_action_ends_run (workflow_id : UUID) (workflow : Workflow)
    (trigger_data : Dict) (matched : bool)
    (before after : list Action) (failing : Action)
    (context : Dict) (action_results : list Value) (e : Exn) (w w1 w2 : World) :
  load_workflow svc workflow_id = Some workflow ->
  workflow_enabled workflow = true ->
  trigger_matched py (workflow_triggers workflow) trigger_data = Ok matched ->
  matched = true \/ workflow_triggers workflow = [] ->
  sorted_by_sort_order (workflow_actions workflow) = (before ++ failing :: after)%list ->
  run_actions py svc before trigger_data [] w = (Ok (context, action_results), w1) ->
  ActionRunner.run_action py svc failing context w1 = (Raise e, w2) ->
  execute_workflow py svc workflow_id trigger_data w =
    (Ok (mkWorkflowLog workflow_id "error" (Some trigger_data) None
                       (Some (exn_message e))),
     snd (ActionRunner.close w2)).
Proof.
  intros Hload Henabled Hmatched Hgate Hsorted Hbefore Hfailing.
  rewrite execute_workflow_unfold by (right; congruence). cbv zeta.
  unfold try_block.
  rewrite Hload, Henabled, Hsorted.
  cbn [negb]. unfold bind at 1. unfold lift. rewrite Hmatched.
  assert (Hskip : negb matched &&
                  negb (Nat.eqb (List.length (workflow_triggers workflow)) 0) = false).
  { destruct Hgate as [Hm | Hnil].
    - rewrite Hm. reflexivity.
    - rewrite Hnil. apply andb_false_r. }
  rewrite Hskip.
  unfold bind.
  rewrite run_actions_app, Hbefore.
  rewrite run_actions_raise with (w' := w2) (e := e) by exact Hfailing.
  reflexivity.
Qed.

End ExecutorProperties.

(** ** The tag action *)

Section ActionProperties.

Import ActionRunner.

Variable py : Builtins.
Variable svc : Services.

(** C9, as the code has it.  The document id is read from the parameters
    and, when it is missing there, from the context; the tag id is read
    from the parameters only.  When either is missing (absent or falsy)
    the action gives the "not tagged" result without raising and without
    a call to a connector: the only change is that the Paperless connector
    has been created.  Otherwise it makes the one add-tag call with the
    two identifiers. *)
Theorem set_tag_reads_and_guards (action : Action) (context : Dict) (w : World) :
  let params := parameters_or_empty action in
  let document_id :=
    py_or (PyDict.get params "document_id" VNone)
          (PyDict.get context "document_id" (VInt 0)) in
  let tag_id := PyDict.get params "tag_id" (VInt 0) in
  let created := mkWorld (calls w) true (lexoffice_open w) in
  (truthy document_id = false \/ truthy tag_id = false ->
   _set_tag svc action context w =
     (Ok ([("tagged", VBool false);
           ("reason", VStr "Missing document_id or tag_id")], context),
      created)) /\
  (truthy document_id = true ->
   truthy tag_id = true ->
   _set_tag svc action context w =
     (match respond svc (calls w) (AddTagToDocument document_id tag_id) with
      | Ok result => Ok ([("tagged", VBool true); ("document", result)], context)
      | Raise e => Raise e
      end,
      mkWorld (calls w ++ [AddTagToDocument document_id tag_id]) true
              (lexoffice_open w))).
Proof.
  cbv zeta. split.
  - intros Hmissing.
    unfold _set_tag, bind, _get_paperless.
    assert (Hguard :
      negb (truthy (py_or (PyDict.get (parameters_or_empty action) "document_id" VNone)
                          (PyDict.get context "document_id" (VInt 0)))) ||
      negb (truthy (PyDict.get (parameters_or_empty action) "tag_id" (VInt 0))) = true).
    { destruct Hmissing as [H | H]; rewrite H; [reflexivity | apply orb_true_r]. }
    rewrite Hguard. reflexivity.
  - intros Hdoc Htag.
    unfold _set_tag, bind, _get_paperless.
    rewrite Hdoc, Htag. cbn [negb orb].
    unfold perform, record_call. cbn [calls paperless_open lexoffice_open].
    destruct (respond svc (calls w) _) as [result | e]; reflexivity.
Qed.

End ActionProperties.

(** With the tag id in the context only, the action reports "not tagged"
    and makes no call, where the action as specified takes the tag id from
    the context and tags the document. *)
Lemma context_tag_id_is_ignored :
  ActionRunner._set_tag Sample.services Sample.tag_from_context
    [("tag_id", VInt 7)] Sample.fresh =
    (Ok (ActionRunner.not_tagged, [("tag_id", VInt 7)]), mkWorld [] true false) /\
  set_tag_as_specified Sample.services Sample.tag_from_context
    [("tag_id", VInt 7)] Sample.fresh =
    (Ok ([("tagged", VBool true);
          ("document", VDict [("id", VInt 42); ("tags", VList [VInt 7])])],
         [("tag_id", VInt 7)]),
     mkWorld [AddTagToDocument (VInt 42) (VInt 7)] true false) /\
  ActionRunner._set_tag Sample.services Sample.tag_from_context
    [("tag_id", VInt 7)] Sample.fresh <>
  set_tag_as_specified Sample.services Sample.tag_from_context
    [("tag_id", VInt 7)] Sample.fresh.
Proof.
  split; [reflexivity | split; [reflexivity | discriminate]].
Qed.

Lemma set_tag_reads_and_guards_witness :
  ActionRunner._set_tag Sample.services Sample.tag_again [] Sample.fresh =
    (Ok ([("tagged", VBool false);
          ("reason", VStr "Missing document_id or tag_id")], []),
     mkWorld [] true false) /\
  ActionRunner._set_tag Sample.services Sample.tag_again
    [("document_id", VInt 42)] Sample.fresh =
    (Ok ([("tagged", VBool true);
          ("document", VDict [("id", VInt 42); ("tags", VList [VInt 8])])],
         [("document_id", VInt 42)]),
     mkWorld [AddTagToDocument (VInt 42) (VInt 8)] true false).
Proof.
  split.
  - apply (proj1 (set_tag_reads_and_guards Sample.services Sample.tag_again []
                    Sample.fresh)).
    left. reflexivity.
  - apply (proj2 (set_tag_reads_and_guards Sample.services Sample.tag_again
                    [("document_id", VInt 42)] Sample.fresh)); reflexivity.
Defined.

(** ** The theorems on sample inputs *)

Lemma leaf_without_field_passes_witness :
  TriggerHandler._evaluate_conditions Sample.runtime
    (VDict [("operator", VStr "gt"); ("value", VInt 3)]) (VDict Sample.event)
  = Ok true.
Proof.
  apply (leaf_without_field_passes Sample.runtime
           [("operator", VStr "gt"); ("value", VInt 3)] (VDict Sample.event));
    reflexivity.
Defined.

Lemma leaf_without_operator_is_eq_witness :
  TriggerHandler._evaluate_conditions Sample.runtime
    (VDict [("field", VStr "document_id"); ("value", VInt 42)]) (VDict Sample.event)
  = Ok (py_eq (VInt 42) (VInt 42)).
Proof.
  apply (proj2 (leaf_without_operator_is_eq Sample.runtime
                  [("field", VStr "document_id"); ("value", VInt 42)]
                  (field_path := "document_id") (VDict Sample.event)
                  eq_refl eq_refl eq_refl eq_refl) (VInt 42)).
  reflexivity.
Defined.


Lemma unknown_workflow_raises_at_flush_witness :
  WorkflowExecutor.execute_workflow Sample.runtime Sample.services
    "7f3e1c52-9a0b-4d68-b7c4-2e5d8a1f6b30" Sample.event Sample.fresh =
    (Raise Sample.integrity_error, Sample.fresh) /\
  WorkflowExecutor.try_block Sample.runtime Sample.services
    "7f3e1c52-9a0b-4d68-b7c4-2e5d8a1f6b30" Sample.event
    (mkWorkflowLog "7f3e1c52-9a0b-4d68-b7c4-2e5d8a1f6b30" "running"
                   (Some Sample.event) None None) Sample.fresh =
    (Raise (ValueError "Workflow 7f3e1c52-9a0b-4d68-b7c4-2e5d8a1f6b30 not found"),
     Sample.fresh).
Proof.
  apply (@unknown_workflow_raises_at_flush Sample.runtime Sample.services
           "7f3e1c52-9a0b-4d68-b7c4-2e5d8a1f6b30" Sample.event Sample.fresh
           Sample.integrity_error); reflexivity.
Defined.

Lemma failing_action_ends_run_witness :
  WorkflowExecutor.execute_workflow Sample.runtime Sample.services
    Sample.workflow_id Sample.event Sample.fresh =
  (Ok (mkWorkflowLog Sample.workflow_id "error" (Some Sample.event) None
         (Some "All connection attempts failed")),
   mkWorld [AddTagToDocument (VInt 42) (VInt 7); DownloadDocument (VInt 42);
            ClosePaperless] true false).
Proof.
  apply (@failing_action_ends_run Sample.runtime Sample.services
           Sample.workflow_id Sample.workflow Sample.event true
           [Sample.tag_invoices] [Sample.tag_again] Sample.fetch_file
           (PyDict.update Sample.event
              [("tagged", VBool true);
               ("document", VDict [("id", VInt 42); ("tags", VList [VInt 7])])])
           [VDict [("action_type", VStr "set_tag");
                   ("result",
                    VDict [("tagged", VBool true);
                           ("document", VDict [("id", VInt 42);
                                               ("tags", VList [VInt 7])])])]]
           (mkExn "ConnectError" "All connection attempts failed")
           Sample.fresh
           (mkWorld [AddTagToDocument (VInt 42) (VInt 7)] true false)
           (mkWorld [AddTagToDocument (VInt 42) (VInt 7);
                     DownloadDocument (VInt 42)] true false)).
  - reflexivity.
  - reflexivity.
  - reflexivity.
  - left. reflexivity.
  - reflexivity.
  - reflexivity.
  - reflexivity.
Defined.

(** * Further properties of the engine *)

(** ** The order of the actions *)

Section ActionOrder.

Import WorkflowExecutor.

Lemma insert_permutation (a : Action) (l : list Action) :
  Permutation (insert_by_sort_order a l) (a :: l).
Proof.
  induction l as [| b rest IH]; cbn [insert_by_sort_order].
  - apply Permutation_refl.
  - destruct (action_sort_order a <=? action_sort_order b).
    + apply Permutation_refl.
    + apply perm_trans with (b :: a :: rest).
      * apply perm_skip. exact IH.
      * apply perm_swap.
Qed.


Lemma sorted_permutation (actions : list Action) :
  Permutation (sorted_by_sort_order actions) actions.
Proof.
  induction actions as [| a rest IH]; cbn [sorted_by_sort_order fold_right].
  - constructor.
  - apply perm_trans with (a :: sorted_by_sort_order rest).
    + apply insert_permutation.
    + apply perm_skip. exact IH.
Qed.




End ActionOrder.

(** ** The outcomes of a run *)

Section RunOutcomes.

Import WorkflowExecutor.

Variable py : Builtins.
Variable svc : Services.

(** The triggers before the first one that does not evaluate to false
    decide the loop. *)
Lemma trigger_matched_after_false (before rest : list Trigger) (trigger_data : Dict) :
  Forall (fun t => TriggerHandler.evaluate_trigger py t trigger_data = Ok false) before ->
  trigger_matched py (before ++ rest) trigger_data =
  trigger_matched py rest trigger_data.
Proof.
  induction 1 as [| t before Ht _ IH]; [reflexivity |].
  cbn [app trigger_matched]. rewrite Ht. exact IH.
Qed.

(** A run that passes the trigger stage is the action loop followed by the
    closing of the connectors. *)
Lemma execute_after_trigger_stage (workflow_id : UUID) (workflow : Workflow)
    (trigger_data : Dict) (matched : bool) (w : World) :
  load_workflow svc workflow_id = Some workflow ->
  workflow_enabled workflow = true ->
  trigger_matched py (workflow_triggers workflow) trigger_data = Ok matched ->
  matched = true \/ workflow_triggers workflow = [] ->
  execute_workflow py svc workflow_id trigger_data w =
    match run_actions py svc (sorted_by_sort_order (workflow_actions workflow))
                      trigger_data [] w with
    | (Ok r, w') =>
        (Ok (mkWorkflowLog workflow_id "success" (Some trigger_data)
                           (Some [("actions", VList (snd r))]) None),
         snd (ActionRunner.close w'))
    | (Raise e, w') =>
        (Ok (mkWorkflowLog workflow_id "error" (Some trigger_data) None
                           (Some (exn_message e))),
         snd (ActionRunner.close w'))
    end.
Proof.
  intros Hload Henabled Hmatched Hgate.
  rewrite execute_workflow_unfold by (right; congruence). cbv zeta.
  unfold try_block.
  rewrite Hload, Henabled.
  cbn [negb]. unfold bind at 1. unfold lift. rewrite Hmatched.
  assert (Hskip : negb matched &&
                  negb (Nat.eqb (List.length (workflow_triggers workflow)) 0) = false).
  { destruct Hgate as [Hm | Hnil].
    - rewrite Hm. reflexivity.
    - rewrite Hnil. apply andb_false_r. }
  rewrite Hskip. unfold bind, ret.
  destruct (run_actions py svc _ trigger_data [] w) as [[r | e] w1]; reflexivity.
Qed.

(** A disabled workflow is skipped with the reason "Workflow is disabled"
    whatever its triggers and actions are: no trigger is evaluated, no
    action runs and no connector is called, so a new executor leaves the
    world as it found it. *)
Theorem disabled_workflow_skipped (workflow_id : UUID) (workflow : Workflow)
    (trigger_data : Dict) (made : list Call) :
  load_workflow svc workflow_id = Some workflow ->
  workflow_enabled workflow = false ->
  execute_workflow py svc workflow_id trigger_data (new_runner made) =
    (Ok (mkWorkflowLog workflow_id "skipped" (Some trigger_data)
                       (Some [("reason", VStr "Workflow is disabled")]) None),
     new_runner made).
Proof.
  intros Hload Hdisabled.
  rewrite execute_workflow_unfold by (right; congruence). cbv zeta.
  unfold try_block. rewrite Hload, Hdisabled. reflexivity.
Qed.

(** On a store that does not enforce the foreign key of the log row, an
    id that the store does not know ends the run in [error] with the
    message "Workflow <id> not found", without output and without a call
    to a connector.  (On a store that enforces the key the flush of the
    log row raises before, and there is no entry.) *)
Theorem unknown_workflow_is_error (workflow_id : UUID) (trigger_data : Dict)
    (made : list Call) :
  foreign_key_violation svc = None ->
  load_workflow svc workflow_id = None ->
  execute_workflow py svc workflow_id trigger_data (new_runner made) =
    (Ok (mkWorkflowLog workflow_id "error" (Some trigger_data) None
                       (Some ("Workflow " ++ workflow_id ++ " not found"))),
     new_runner made).
Proof.
  intros Hlenient Hload.
  rewrite execute_workflow_unfold by (left; exact Hlenient). cbv zeta.
  unfold try_block. rewrite Hload. reflexivity.
Qed.

(** A run whose log row the store takes, which is the run of every
    workflow that the store holds and every run on a store that does not
    enforce foreign keys, returns a log entry whatever the workflow, the
    event and the connectors do, and the status of the entry is
    [skipped], [success] or [error], never [running]. *)
Theorem flushed_run_is_terminal (workflow_id : UUID) (trigger_data : Dict)
    (w : World) :
  foreign_key_violation svc = None \/ load_workflow svc workflow_id <> None ->
  exists (log_entry : WorkflowLog) (w' : World),
    execute_workflow py svc workflow_id trigger_data w = (Ok log_entry, w') /\
    (log_status log_entry = "skipped" \/
     log_status log_entry = "success" \/
     log_status log_entry = "error") /\
    log_status log_entry <> "running".
Proof.
  intros Haccepted.
  pose proof (@execute_workflow_unfold py svc workflow_id trigger_data w Haccepted) as Hrun.
  cbv zeta in Hrun.
  destruct (try_block py svc workflow_id trigger_data
              (mkWorkflowLog workflow_id "running" (Some trigger_data) None None) w)
    as [[l | e] w1] eqn:Hblock.
  - exists l, (snd (ActionRunner.close w1)).
    split; [exact Hrun |].
    destruct (@try_block_status py svc _ _ _ _ _ _ Hblock) as [Hs | Hs]; rewrite Hs.
    + split; [left; reflexivity | discriminate].
    + split; [right; left; reflexivity | discriminate].
  - eexists. exists (snd (ActionRunner.close w1)).
    split; [exact Hrun |].
    split; [right; right; reflexivity | discriminate].
Qed.

(** The run of a workflow that has triggers, none of which matches. *)
Lemma execute_without_match (workflow_id : UUID) (workflow : Workflow)
    (trigger_data : Dict) (made : list Call) :
  load_workflow svc workflow_id = Some workflow ->
  workflow_enabled workflow = true ->
  workflow_triggers workflow <> [] ->
  Forall (fun t => TriggerHandler.evaluate_trigger py t trigger_data = Ok false)
         (workflow_triggers workflow) ->
  execute_workflow py svc workflow_id trigger_data (new_runner made) =
    (Ok (mkWorkflowLog workflow_id "skipped" (Some trigger_data)
                       (Some [("reason", VStr "No trigger matched")]) None),
     new_runner made).
Proof.
  intros Hload Henabled Hsome Hnone.
  rewrite execute_workflow_unfold by (right; congruence). cbv zeta.
  unfold try_block. rewrite Hload, Henabled.
  cbn [negb]. unfold bind, lift.
  pose proof (trigger_matched_after_false [] trigger_data Hnone) as Hloop.
  rewrite app_nil_r in Hloop. cbn [trigger_matched] in Hloop.
  rewrite Hloop.
  destruct (workflow_triggers workflow) as [| t rest]; [contradiction |].
  reflexivity.
Qed.

(** When the workflow has triggers and each of them evaluates to false,
    the run is skipped with the reason "No trigger matched": no action
    runs and no connector is called. *)
Theorem unmatched_workflow_skipped (workflow_id : UUID) (workflow : Workflow)
    (trigger_data : Dict) (made : list Call) :
  load_workflow svc workflow_id = Some workflow ->
  workflow_enabled workflow = true ->
  workflow_triggers workflow <> [] ->
  Forall (fun t => TriggerHandler.evaluate_trigger py t trigger_data = Ok false)
         (workflow_triggers workflow) ->
  execute_workflow py svc workflow_id trigger_data (new_runner made) =
    (Ok (mkWorkflowLog workflow_id "skipped" (Some trigger_data)
                       (Some [("reason", VStr "No trigger matched")]) None),
     new_runner made).
Proof. exact (@execute_without_match workflow_id workflow trigger_data made). Qed.

(** An exception of the trigger evaluation ends the run in [error] with
    its message before any action: when the triggers before the raising
    one evaluate to false, the triggers after it are not evaluated and no
    connector is called. *)
Theorem raising_trigger_is_error (workflow_id : UUID) (workflow : Workflow)
    (trigger_data : Dict) (before after : list Trigger) (raising : Trigger)
    (e : Exn) (made : list Call) :
  load_workflow svc workflow_id = Some workflow ->
  workflow_enabled workflow = true ->
  workflow_triggers workflow = (before ++ raising :: after)%list ->
  Forall (fun t => TriggerHandler.evaluate_trigger py t trigger_data = Ok false) before ->
  TriggerHandler.evaluate_trigger py raising trigger_data = Raise e ->
  execute_workflow py svc workflow_id trigger_data (new_runner made) =
    (Ok (mkWorkflowLog workflow_id "error" (Some trigger_data) None
                       (Some (exn_message e))),
     new_runner made).
Proof.
  intros Hload Henabled Htriggers Hbefore Hraise.
  rewrite execute_workflow_unfold by (right; congruence). cbv zeta.
  unfold try_block. rewrite Hload, Henabled, Htriggers.
  cbn [negb]. unfold bind, lift.
  rewrite (trigger_matched_after_false _ trigger_data Hbefore).
  cbn [trigger_matched]. rewrite Hraise. reflexivity.
Qed.

(** The first trigger that matches decides: when the triggers before it
    evaluate to false, the run goes on to the actions whatever the
    triggers after it are, which are not evaluated. *)
Theorem first_matching_trigger_wins (workflow_id : UUID) (workflow : Workflow)
    (trigger_data : Dict) (before after : list Trigger) (matching : Trigger)
    (w : World) :
  load_workflow svc workflow_id = Some workflow ->
  workflow_enabled workflow = true ->
  workflow_triggers workflow = (before ++ matching :: after)%list ->
  Forall (fun t => TriggerHandler.evaluate_trigger py t trigger_data = Ok false) before ->
  TriggerHandler.evaluate_trigger py matching trigger_data = Ok true ->
  execute_workflow py svc workflow_id trigger_data w =
    match run_actions py svc (sorted_by_sort_order (workflow_actions workflow))
                      trigger_data [] w with
    | (Ok r, w') =>
        (Ok (mkWorkflowLog workflow_id "success" (Some trigger_data)
                           (Some [("actions", VList (snd r))]) None),
         snd (ActionRunner.close w'))
    | (Raise e, w') =>
        (Ok (mkWorkflowLog workflow_id "error" (Some trigger_data) None
                           (Some (exn_message e))),
         snd (ActionRunner.close w'))
    end.
Proof.
  intros Hload Henabled Htriggers Hbefore Hmatch.
  apply execute_after_trigger_stage with (workflow := workflow) (matched := true);
    try assumption; [| left; reflexivity].
  rewrite Htriggers.
  rewrite (trigger_matched_after_false _ trigger_data Hbefore).
  cbn [trigger_matched]. rewrite Hmatch. reflexivity.
Qed.

End RunOutcomes.

(** ** The connectors of a run *)

Section ConnectorLifecycle.

Import ActionRunner WorkflowExecutor.

Variable py : Builtins.
Variable svc : Services.

Lemma grows_refl (w : World) : grows w w [].
Proof.
  unfold grows. rewrite app_nil_r.
  repeat split; try constructor.
  - intros [H | H]; [exact H | discriminate].
  - intros [H | H]; [exact H | discriminate].
Qed.

Lemma grows_trans (w1 w2 w3 : World) (ops1 ops2 : list Call) :
  grows w1 w2 ops1 -> grows w2 w3 ops2 -> grows w1 w3 (ops1 ++ ops2).
Proof.
  intros (Hc1 & Hf1 & Hp1 & Hl1) (Hc2 & Hf2 & Hp2 & Hl2).
  unfold grows. rewrite Hc2, Hc1, app_assoc.
  split; [reflexivity |].
  split; [apply Forall_app; split; assumption |].
  split.
  - intros [H | H].
    + apply Hp2. left. apply Hp1. left. exact H.
    + rewrite existsb_app in H. apply orb_true_iff in H. destruct H as [H | H].
      * apply Hp2. left. apply Hp1. right. exact H.
      * apply Hp2. right. exact H.
  - intros [H | H].
    + apply Hl2. left. apply Hl1. left. exact H.
    + rewrite existsb_app in H. apply orb_true_iff in H. destruct H as [H | H].
      * apply Hl2. left. apply Hl1. right. exact H.
      * apply Hl2. right. exact H.
Qed.

Ltac step_handler :=
  unfold bind, lift, ret, raise, _get_paperless, _get_lexoffice, perform, today,
         record_call;
  cbn [calls paperless_open lexoffice_open fst snd];
  repeat match goal with
         | |- context [match ?x with _ => _ end] => destruct x eqn:?
         | |- context [if ?b then _ else _] => destruct b eqn:?
         end.

Ltac flag_grows :=
  let H := fresh in
  intros [H | H];
  first [ reflexivity | exact H | cbn in H; discriminate H ].

Ltac close_grows :=
  let H := fresh in
  intros H; inversion H; subst; clear H;
  rewrite <- ?app_assoc;
  first [ exists (@nil Call); unfold grows;
          cbn [calls paperless_open lexoffice_open];
          split; [symmetry; apply app_nil_r |]
        | eexists; unfold grows;
          cbn [calls paperless_open lexoffice_open];
          split; [reflexivity |] ];
  (split; [repeat constructor | split; flag_grows]).

Lemma set_tag_grows (action : Action) (context : Dict) (w w' : World)
    (r : Result (Dict * Dict)) :
  _set_tag svc action context w = (r, w') -> exists ops, grows w w' ops.
Proof. unfold _set_tag. step_handler; close_grows. Qed.

Lemma create_voucher_grows (action : Action) (context : Dict) (w w' : World)
    (r : Result (Dict * Dict)) :
  _create_lexoffice_voucher svc action context w = (r, w') ->
  exists ops, grows w w' ops.
Proof. unfold _create_lexoffice_voucher. step_handler; close_grows. Qed.

Lemma upload_grows (action : Action) (context : Dict) (w w' : World)
    (r : Result (Dict * Dict)) :
  _upload_to_paperless svc action context w = (r, w') -> exists ops, grows w w' ops.
Proof. unfold _upload_to_paperless. step_handler; close_grows. Qed.

Lemma sync_contact_grows (action : Action) (context : Dict) (w w' : World)
    (r : Result (Dict * Dict)) :
  _sync_contact svc action context w = (r, w') -> exists ops, grows w w' ops.
Proof. unfold _sync_contact. step_handler; close_grows. Qed.

Lemma download_grows (action : Action) (context : Dict) (w w' : World)
    (r : Result (Dict * Dict)) :
  _download_document py svc action context w = (r, w') -> exists ops, grows w w' ops.
Proof. unfold _download_document. step_handler; close_grows. Qed.

(** Whatever an action does, it only appends operations, and only on
    connectors it has created. *)
Lemma run_action_grows (action : Action) (context : Dict) (w w' : World)
    (r : Result (Dict * Dict)) :
  run_action py svc action context w = (r, w') -> exists ops, grows w w' ops.
Proof.
  unfold run_action, _action_map. cbn [find_handler].
  repeat match goal with
         | |- context [if ?b then _ else _] => destruct b
         end.
  - apply create_voucher_grows.
  - apply upload_grows.
  - apply sync_contact_grows.
  - apply set_tag_grows.
  - apply download_grows.
  - unfold raise. intros H. inversion H; subst. exists []. apply grows_refl.
Qed.

Lemma run_actions_grows (actions : list Action) (context : Dict)
    (action_results : list Value) (w w' : World) (r : Result (Dict * list Value)) :
  run_actions py svc actions context action_results w = (r, w') ->
  exists ops, grows w w' ops.
Proof.
  revert context action_results w.
  induction actions as [| action rest IH]; intros context action_results w.
  - cbn [run_actions]. unfold ret. intros H. inversion H; subst.
    exists []. apply grows_refl.
  - cbn [run_actions]. unfold bind.
    destruct (run_action py svc action context w) as [[[action_result context1] | e] w1]
      eqn:Hrun.
    + intros Hrest.
      destruct (run_action_grows _ _ _ Hrun) as [ops1 H1].
      destruct (IH _ _ _ Hrest) as [ops2 H2].
      exists (ops1 ++ ops2)%list. eapply grows_trans; eassumption.
    + intros H. inversion H; subst.
      eapply run_action_grows. exact Hrun.
Qed.

Lemma try_block_grows (workflow_id : UUID) (trigger_data : Dict)
    (log_entry : WorkflowLog) (w w' : World) (r : Result WorkflowLog) :
  try_block py svc workflow_id trigger_data log_entry w = (r, w') ->
  exists ops, grows w w' ops.
Proof.
  unfold try_block.
  destruct (load_workflow svc workflow_id) as [workflow |].
  - destruct (workflow_enabled workflow); cbn [negb].
    + unfold bind at 1. unfold lift.
      destruct (trigger_matched py (workflow_triggers workflow) trigger_data)
        as [matched | e].
      * destruct (negb matched && _).
        -- unfold ret. intros H. inversion H; subst. exists []. apply grows_refl.
        -- unfold bind, ret.
           destruct (run_actions py svc _ trigger_data [] w) as [[r1 | e] w1] eqn:Hrun;
             intros H; inversion H; subst;
             eapply run_actions_grows; exact Hrun.
      * intros H. inversion H; subst. exists []. apply grows_refl.
    + unfold ret. intros H. inversion H; subst. exists []. apply grows_refl.
  - unfold raise. intros H. inversion H; subst. exists []. apply grows_refl.
Qed.

Lemma close_calls (w : World) :
  calls (snd (close w)) =
  (calls w ++ (if paperless_open w then [ClosePaperless] else [])
           ++ (if lexoffice_open w then [CloseLexoffice] else []))%list.
Proof.
  destruct w as [made [|] [|]]; cbn; rewrite <- ?app_assoc, ?app_nil_r; reflexivity.
Qed.

(** The connectors are released whatever the outcome.  A run of a new
    executor appends to the calls made before it the operations of its
    actions, none of which is a closing, and then the closings, each
    connector at most once; a connector on which an operation was called
    is closed.  Nothing is called after the closings. *)
Theorem used_connectors_are_closed (workflow_id : UUID) (trigger_data : Dict)
    (made : list Call) :
  exists ops closing : list Call,
    calls (snd (execute_workflow py svc workflow_id trigger_data (new_runner made))) =
      (made ++ ops ++ closing)%list /\
    Forall (fun c => is_close c = false) ops /\
    Forall (fun c => is_close c = true) closing /\
    NoDup closing /\
    (existsb is_paperless_call ops = true -> In ClosePaperless closing) /\
    (existsb is_lexoffice_call ops = true -> In CloseLexoffice closing).
Proof.
  assert (Hflush :
    (foreign_key_violation svc = None \/ load_workflow svc workflow_id <> None) \/
    exists e, foreign_key_violation svc = Some e /\
              load_workflow svc workflow_id = None).
  { destruct (foreign_key_violation svc) as [e |]; [| left; left; reflexivity].
    destruct (load_workflow svc workflow_id) as [workflow |].
    - left. right. discriminate.
    - right. exists e. split; reflexivity. }
  destruct Hflush as [Haccepted | [e [Hstrict Hunknown]]].
  2: { rewrite execute_workflow_refused with (e := e) by assumption.
       exists [], []. cbn [snd calls new_runner app].
       rewrite app_nil_r.
       repeat split; try constructor; cbn; intros H; discriminate H. }
  rewrite execute_workflow_unfold by exact Haccepted. cbv zeta.
  destruct (try_block py svc workflow_id trigger_data _ (new_runner made))
    as [r w1] eqn:Hblock.
  destruct (try_block_grows _ _ _ _ Hblock) as [ops (Hcalls & Hops & Hp & Hl)].
  cbn [calls new_runner] in Hcalls.
  exists ops,
    ((if paperless_open w1 then [ClosePaperless] else []) ++
     (if lexoffice_open w1 then [CloseLexoffice] else []))%list.
  split.
  { destruct r; cbn [snd]; rewrite close_calls, Hcalls, <- app_assoc; reflexivity. }
  split; [exact Hops |].
  split; [destruct (paperless_open w1), (lexoffice_open w1); repeat constructor |].
  split.
  { destruct (paperless_open w1), (lexoffice_open w1); cbn;
      repeat constructor; cbn; intuition discriminate. }
  split.
  - intros Hused. rewrite (Hp (or_intror Hused)). left. reflexivity.
  - intros Hused. rewrite (Hl (or_intror Hused)).
    destruct (paperless_open w1); cbn; auto.
Qed.

End ConnectorLifecycle.

(** ** Results and context of the action loop *)

Section ActionLoop.

Import ActionRunner WorkflowExecutor.

Variable py : Builtins.
Variable svc : Services.

Lemma lookup_set_same (d : Dict) (key : string) (v : Value) :
  PyDict.lookup key (PyDict.set d key v) = Some v.
Proof.
  induction d as [| [k x] rest IH]; cbn [PyDict.set PyDict.lookup].
  - rewrite String.eqb_refl. reflexivity.
  - destruct (String.eqb k key) eqn:Hk; cbn [PyDict.lookup]; rewrite Hk.
    + reflexivity.
    + exact IH.
Qed.

Lemma lookup_set_other (d : Dict) (key other : string) (v : Value) :
  other <> key ->
  PyDict.lookup other (PyDict.set d key v) = PyDict.lookup other d.
Proof.
  intros Hne.
  induction d as [| [k x] rest IH]; cbn [PyDict.set PyDict.lookup].
  - destruct (String.eqb key other) eqn:Hk; [| reflexivity].
    apply String.eqb_eq in Hk. congruence.
  - destruct (String.eqb k key) eqn:Hk; cbn [PyDict.lookup].
    + destruct (String.eqb k other) eqn:Ho; [| reflexivity].
      apply String.eqb_eq in Hk, Ho. congruence.
    + rewrite IH. reflexivity.
Qed.

Lemma lookup_absent (key : string) (d : Dict) :
  ~ In key (PyDict.keys d) -> PyDict.lookup key d = None.
Proof.
  induction d as [| [k x] rest IH]; cbn [PyDict.keys map fst PyDict.lookup In];
    [reflexivity |].
  intros Hnot.
  destruct (String.eqb_spec k key) as [He | _]; [exfalso; apply Hnot; left; exact He |].
  apply IH. intros Hin. apply Hnot. right. exact Hin.
Qed.

(** The merge of an action's result into the context, which the next
    action receives: a key of the result has the value of the result, and
    every other key keeps the value it had in the context. *)
Theorem merged_context_prefers_result (context action_result : Dict) (key : string) :
  NoDup (PyDict.keys action_result) ->
  PyDict.lookup key (PyDict.update context action_result) =
  match PyDict.lookup key action_result with
  | Some v => Some v
  | None => PyDict.lookup key context
  end.
Proof.
  unfold PyDict.update.
  revert context.
  induction action_result as [| [k x] rest IH]; intros context Hkeys;
    cbn [fold_left fst snd PyDict.lookup]; [reflexivity |].
  cbn [PyDict.keys map fst] in Hkeys. inversion Hkeys as [| k' ks Hfresh Hrest]; subst.
  rewrite (IH _ Hrest).
  destruct (String.eqb_spec k key) as [He | Hne].
  - subst key. rewrite (lookup_absent _ _ Hfresh). apply lookup_set_same.
  - destruct (PyDict.lookup key rest); [reflexivity |].
    apply lookup_set_other. congruence.
Qed.

(** The loop appends one entry for each action it completes, in the
    order in which it runs them. *)
Lemma run_actions_entries (actions : list Action) (context context' : Dict)
    (action_results action_results' : list Value) (w w' : World) :
  run_actions py svc actions context action_results w =
    (Ok (context', action_results'), w') ->
  exists entries,
    action_results' = (action_results ++ entries)%list /\
    map entry_action_type entries = map (fun a => VStr (action_type a)) actions.
Proof.
  revert context action_results w.
  induction actions as [| action rest IH]; intros context action_results w.
  - cbn [run_actions]. unfold ret. intros H. inversion H; subst.
    exists []. rewrite app_nil_r. split; reflexivity.
  - cbn [run_actions]. unfold bind.
    destruct (run_action py svc action context w)
      as [[[action_result context1] | e] w1]; [| discriminate].
    intros Hrest.
    destruct (IH _ _ _ Hrest) as [entries [Hresults Htypes]].
    exists (result_entry action action_result :: entries).
    split.
    + rewrite Hresults, <- app_assoc. reflexivity.
    + cbn [map]. rewrite Htypes. reflexivity.
Qed.

(** When every action completes, the run is a [success] whose output
    lists one entry for each action of the workflow, in ascending
    [sort_order], each with the [action_type] of its action. *)
Theorem successful_run_lists_every_action (workflow_id : UUID) (workflow : Workflow)
    (trigger_data : Dict) (matched : bool) (context : Dict)
    (action_results : list Value) (w w' : World) :
  load_workflow svc workflow_id = Some workflow ->
  workflow_enabled workflow = true ->
  trigger_matched py (workflow_triggers workflow) trigger_data = Ok matched ->
  matched = true \/ workflow_triggers workflow = [] ->
  run_actions py svc (sorted_by_sort_order (workflow_actions workflow))
              trigger_data [] w = (Ok (context, action_results), w') ->
  execute_workflow py svc workflow_id trigger_data w =
    (Ok (mkWorkflowLog workflow_id "success" (Some trigger_data)
                       (Some [("actions", VList action_results)]) None),
     snd (close w')) /\
  map entry_action_type action_results =
    map (fun a => VStr (action_type a))
        (sorted_by_sort_order (workflow_actions workflow)) /\
  List.length action_results = List.length (workflow_actions workflow).
Proof.
  intros Hload Henabled Hmatched Hgate Hrun.
  destruct (run_actions_entries _ _ _ _ Hrun) as [entries [Hresults Htypes]].
  cbn [app] in Hresults. subst entries.
  split; [| split].
  - rewrite (execute_after_trigger_stage py svc _ trigger_data w
               Hload Henabled Hmatched Hgate).
    rewrite Hrun. reflexivity.
  - exact Htypes.
  - rewrite <- (length_map entry_action_type), Htypes, length_map.
    apply Permutation_length.
    apply sorted_permutation.
Qed.

End ActionLoop.

(** ** What the actions hand to each other *)

Section ActionChains.

Import ActionRunner WorkflowExecutor.

Variable py : Builtins.
Variable svc : Services.

Lemma dispatch_sync_contact (action : Action) :
  action_type action = "sync_contact" ->
  run_action py svc action = _sync_contact svc action.
Proof. intros H. unfold run_action. rewrite H. reflexivity. Qed.

Lemma dispatch_create_voucher (action : Action) :
  action_type action = "create_lexoffice_voucher" ->
  run_action py svc action = _create_lexoffice_voucher svc action.
Proof. intros H. unfold run_action. rewrite H. reflexivity. Qed.

Lemma dispatch_download (action : Action) :
  action_type action = "download_document" ->
  run_action py svc action = _download_document py svc action.
Proof. intros H. unfold run_action. rewrite H. reflexivity. Qed.

Lemma dispatch_upload (action : Action) :
  action_type action = "upload_to_paperless" ->
  run_action py svc action = _upload_to_paperless svc action.
Proof. intros H. unfold run_action. rewrite H. reflexivity. Qed.

Ltac unfold_handler :=
  unfold bind, lift, ret, raise, _get_paperless, _get_lexoffice, perform, today,
         record_call;
  cbn [calls paperless_open lexoffice_open].

(** The run of [_sync_contact] when the search finds a contact. *)
Lemma sync_contact_found (action : Action) (context : Dict) (w : World)
    (found contact : Dict) (others : list Value) :
  let name :=
    PyDict.get (parameters_or_empty action) "correspondent_name"
               (PyDict.get context "correspondent_name" (VStr "")) in
  truthy name = true ->
  respond svc (calls w) (SearchContacts name) = Ok (VDict found) ->
  PyDict.lookup "content" found = Some (VList (VDict contact :: others)) ->
  _sync_contact svc action context w =
    (Ok ([("synced", VBool true);
          ("lexoffice_contact_id", PyDict.get contact "id" (VStr ""));
          ("created", VBool false)], context),
     mkWorld (calls w ++ [SearchContacts name]) true true).
Proof.
  intros name Hname Hsearch Hcontent.
  unfold _sync_contact. unfold_handler.
  fold name. rewrite Hname.
  cbn [negb calls paperless_open lexoffice_open]. rewrite Hsearch.
  assert (Hget : PyDict.get found "content" (VList []) =
                 VList (VDict contact :: others)).
  { unfold PyDict.get. rewrite Hcontent. reflexivity. }
  cbn [py_get]. rewrite !Hget. reflexivity.
Qed.

(** The voucher request of [_create_lexoffice_voucher] when the action
    names no contact and the context holds one. *)
Lemma create_voucher_contact_from_context (action : Action) (context : Dict)
    (w : World) (contact_id : Value) :
  truthy (PyDict.get (parameters_or_empty action) "contact_id" VNone) = false ->
  PyDict.lookup "lexoffice_contact_id" context = Some contact_id ->
  truthy contact_id = true ->
  exists voucher_data r,
    _create_lexoffice_voucher svc action context w =
      (r, mkWorld (calls w ++ [CreateVoucher voucher_data]) (paperless_open w) true) /\
    PyDict.lookup "contactId" voucher_data = Some contact_id.
Proof.
  intros Hparam Hcontext Htruthy.
  unfold _create_lexoffice_voucher. unfold_handler.
  assert (Hget : PyDict.get context "lexoffice_contact_id" VNone = contact_id).
  { unfold PyDict.get. rewrite Hcontext. reflexivity. }
  unfold py_or. rewrite Hparam, Hget, Htruthy.
  match goal with
  | |- context [respond svc (calls w) (CreateVoucher ?vd)] =>
      exists vd; destruct (respond svc (calls w) (CreateVoucher vd)) as [result | e]
  end.
  - destruct (py_get result "id" VNone); eexists; (split; [reflexivity |]);
      apply lookup_set_same.
  - eexists. split; [reflexivity |]. apply lookup_set_same.
Qed.

(** The contact that a sync-contact action finds is the contact of the
    voucher that a following create-voucher action requests, when that
    action names no contact of its own: the id goes from the result of the
    first action through the context into the request of the second. *)
Theorem synced_contact_reaches_voucher (sync voucher : Action) (context : Dict)
    (action_results : list Value) (w : World) (found contact : Dict)
    (others : list Value) :
  let name :=
    PyDict.get (parameters_or_empty sync) "correspondent_name"
               (PyDict.get context "correspondent_name" (VStr "")) in
  action_type sync = "sync_contact" ->
  action_type voucher = "create_lexoffice_voucher" ->
  truthy name = true ->
  respond svc (calls w) (SearchContacts name) = Ok (VDict found) ->
  PyDict.lookup "content" found = Some (VList (VDict contact :: others)) ->
  truthy (PyDict.get contact "id" (VStr "")) = true ->
  truthy (PyDict.get (parameters_or_empty voucher) "contact_id" VNone) = false ->
  exists voucher_data,
    calls (snd (run_actions py svc [sync; voucher] context action_results w)) =
      (calls w ++ [SearchContacts name; CreateVoucher voucher_data])%list /\
    PyDict.lookup "contactId" voucher_data = Some (PyDict.get contact "id" (VStr "")).
Proof.
  intros name Hsync Hvoucher Hname Hsearch Hcontent Hid Hparam.
  subst name.
  cbn [run_actions].
  rewrite (dispatch_sync_contact _ Hsync), (dispatch_create_voucher _ Hvoucher).
  unfold bind at 1.
  rewrite (sync_contact_found _ _ _ Hname Hsearch Hcontent).
  set (merged := PyDict.update context _).
  assert (Hmerged : PyDict.lookup "lexoffice_contact_id" merged =
                    Some (PyDict.get contact "id" (VStr ""))).
  { unfold merged, PyDict.update. cbn [fold_left fst snd].
    rewrite lookup_set_other by discriminate.
    apply lookup_set_same. }
  unfold bind.
  match goal with
  | |- context [_create_lexoffice_voucher svc voucher merged ?w1] =>
      destruct (create_voucher_contact_from_context voucher merged w1
                  Hparam Hmerged Hid) as (voucher_data & r & Hrun & Hcontact)
  end.
  exists voucher_data. split; [| exact Hcontact].
  rewrite Hrun.
  cbn [calls] in *.
  destruct r as [[action_result context2] | e]; unfold ret; cbn [snd calls];
    rewrite <- app_assoc; reflexivity.
Qed.

(** The run of [_download_document] when both requests succeed. *)
Lemma download_succeeds (action : Action) (context : Dict) (w : World)
    (content : Value) (meta : Dict) (size : Z) :
  let document_id :=
    py_or (PyDict.get (parameters_or_empty action) "document_id" VNone)
          (PyDict.get context "document_id" (VInt 0)) in
  let filename :=
    PyDict.get meta "original_file_name"
               (VStr ("document_" ++ py_str py document_id ++ ".pdf")) in
  truthy document_id = true ->
  respond svc (calls w) (DownloadDocument document_id) = Ok content ->
  respond svc (calls w ++ [DownloadDocument document_id]) (GetDocument document_id)
    = Ok (VDict meta) ->
  py_len content = Ok size ->
  _download_document py svc action context w =
    (Ok ([("downloaded", VBool true); ("filename", filename); ("size", VInt size)],
         PyDict.set (PyDict.set context "file_content" content) "filename" filename),
     mkWorld (calls w ++ [DownloadDocument document_id; GetDocument document_id])
             true (lexoffice_open w)).
Proof.
  intros document_id filename Hid Hcontent Hmeta Hlen.
  unfold _download_document. unfold_handler.
  fold document_id. rewrite Hid.
  cbn [negb calls paperless_open lexoffice_open].
  rewrite Hcontent, Hmeta. cbn [py_get]. rewrite Hlen.
  fold filename. rewrite <- app_assoc. reflexivity.
Qed.

(** The request of [_upload_to_paperless] when the action names no file
    and the context holds one. *)
Lemma upload_from_context (action : Action) (context : Dict) (w : World)
    (content filename : Value) :
  PyDict.lookup "filename" (parameters_or_empty action) = None ->
  PyDict.lookup "file_content" context = Some content ->
  PyDict.lookup "filename" context = Some filename ->
  exists title correspondent document_type tags r,
    _upload_to_paperless svc action context w =
      (r, mkWorld (calls w ++ [UploadDocument content filename title correspondent
                                              document_type tags])
                  true (lexoffice_open w)).
Proof.
  intros Hparam Hcontent Hfilename.
  unfold _upload_to_paperless. unfold_handler.
  assert (Hc : PyDict.get context "file_content" (VBytes "") = content).
  { unfold PyDict.get. rewrite Hcontent. reflexivity. }
  assert (Hf : PyDict.get (parameters_or_empty action) "filename"
                 (PyDict.get context "filename" (VStr "document.pdf")) = filename).
  { unfold PyDict.get. rewrite Hparam, Hfilename. reflexivity. }
  rewrite Hc, Hf.
  do 4 eexists.
  match goal with
  | |- context [respond svc ?made ?c] => destruct (respond svc made c)
  end; eexists; reflexivity.
Qed.

(** The file that a download action fetches is the file that a following
    upload action sends, under the name the document's metadata give it
    (or [document_<id>.pdf]), when the upload action names no file of its
    own. *)
Theorem downloaded_file_reaches_upload (download upload : Action) (context : Dict)
    (action_results : list Value) (w : World) (content : Value) (meta : Dict)
    (size : Z) :
  let document_id :=
    py_or (PyDict.get (parameters_or_empty download) "document_id" VNone)
          (PyDict.get context "document_id" (VInt 0)) in
  let filename :=
    PyDict.get meta "original_file_name"
               (VStr ("document_" ++ py_str py document_id ++ ".pdf")) in
  action_type download = "download_document" ->
  action_type upload = "upload_to_paperless" ->
  truthy document_id = true ->
  respond svc (calls w) (DownloadDocument document_id) = Ok content ->
  respond svc (calls w ++ [DownloadDocument document_id]) (GetDocument document_id)
    = Ok (VDict meta) ->
  py_len content = Ok size ->
  PyDict.lookup "filename" (parameters_or_empty upload) = None ->
  exists title correspondent document_type tags,
    calls (snd (run_actions py svc [download; upload] context action_results w)) =
      (calls w ++ [DownloadDocument document_id; GetDocument document_id;
                   UploadDocument content filename title correspondent
                                  document_type tags])%list.
Proof.
  intros document_id filename Hdownload Hupload Hid Hcontent Hmeta Hlen Hparam.
  cbn [run_actions].
  rewrite (dispatch_download _ Hdownload), (dispatch_upload _ Hupload).
  unfold bind at 1.
  rewrite (download_succeeds download context w Hid Hcontent Hmeta Hlen).
  fold document_id. fold filename.
  set (merged := PyDict.update _ _).
  assert (Hfile : PyDict.lookup "file_content" merged = Some content).
  { unfold merged, PyDict.update. cbn [fold_left fst snd].
    rewrite !lookup_set_other by discriminate.
    apply lookup_set_same. }
  assert (Hname : PyDict.lookup "filename" merged = Some filename).
  { unfold merged, PyDict.update. cbn [fold_left fst snd].
    rewrite lookup_set_other by discriminate.
    apply lookup_set_same. }
  unfold bind.
  match goal with
  | |- context [_upload_to_paperless svc upload merged ?w1] =>
      destruct (upload_from_context upload merged w1 Hparam Hfile Hname)
        as (title & correspondent & document_type & tags & r & Hrun)
  end.
  exists title, correspondent, document_type, tags.
  rewrite Hrun.
  destruct r as [[action_result context2] | e]; unfold ret; cbn [snd calls];
    rewrite <- app_assoc; reflexivity.
Qed.

(** A sync-contact action without a correspondent name calls no
    connector and reports "not synced".  With a name it searches once; it
    creates a contact, with the name as company name, exactly when the
    search gives no contact, and makes no further call when it gives
    one. *)
Theorem sync_contact_creates_when_none_found (action : Action) (context : Dict)
    (w : World) :
  let name :=
    PyDict.get (parameters_or_empty action) "correspondent_name"
               (PyDict.get context "correspondent_name" (VStr "")) in
  (truthy name = false ->
   _sync_contact svc action context w =
     (Ok ([("synced", VBool false); ("reason", VStr "No correspondent name provided")],
          context),
      mkWorld (calls w) true true)) /\
  (forall search_result contacts,
     truthy name = true ->
     respond svc (calls w) (SearchContacts name) = Ok search_result ->
     py_get search_result "content" (VList []) = Ok contacts ->
     calls (snd (_sync_contact svc action context w)) =
       if truthy contacts
       then (calls w ++ [SearchContacts name])%list
       else (calls w ++ [SearchContacts name;
                         CreateContact
                           [("version", VInt 0);
                            ("roles", VDict [("customer", VDict [])]);
                            ("company", VDict [("name", name)])]])%list).
Proof.
  intros name. split.
  - intros Hname. unfold _sync_contact. unfold_handler.
    fold name. rewrite Hname. reflexivity.
  - intros search_result contacts Hname Hsearch Hcontacts.
    unfold _sync_contact. unfold_handler.
    fold name. rewrite Hname.
    cbn [negb calls paperless_open lexoffice_open].
    rewrite Hsearch, Hcontacts.
    destruct (truthy contacts).
    + destruct (py_first contacts) as [contact | e]; [| reflexivity].
      destruct (py_get contact "id" (VStr "")); reflexivity.
    + cbn [calls].
      match goal with
      | |- context [respond svc ?made ?c] => destruct (respond svc made c) as [created | e]
      end.
      * destruct (py_get created "id" (VStr "")); cbn [snd calls];
          rewrite <- app_assoc; reflexivity.
      * cbn [snd calls]. rewrite <- app_assoc. reflexivity.
Qed.

(** The names of the registry. *)
Lemma find_handler_unknown (name : string) :
  ~ In name ["create_lexoffice_voucher"; "upload_to_paperless"; "sync_contact";
             "set_tag"; "download_document"] ->
  find_handler name (_action_map py svc) = None.
Proof.
  intros Hnot. unfold _action_map. cbn [find_handler].
  repeat match goal with
         | |- context [String.eqb ?k name] =>
             destruct (String.eqb_spec k name) as [Heq | _];
             [exfalso; apply Hnot; rewrite <- Heq; cbn; tauto |]
         end.
  reflexivity.
Qed.

(** An action whose type is none of the five registered ones raises
    [ValueError] with the message "Unknown action type: <type>"; no
    connector is created or called for it. *)
Theorem unknown_action_type_raises (action : Action) (context : Dict) (w : World) :
  ~ In (action_type action)
       ["create_lexoffice_voucher"; "upload_to_paperless"; "sync_contact";
        "set_tag"; "download_document"] ->
  run_action py svc action context w =
    (Raise (ValueError ("Unknown action type: " ++ action_type action)), w).
Proof.
  intros Hnot. unfold run_action.
  rewrite (find_handler_unknown Hnot). reflexivity.
Qed.

End ActionChains.

(** ** Operators, composites and paths *)

Section EvaluatorFacts.

Import TriggerHandler.

Variable py : Builtins.

(** An operator that is none of the eight names, text or not, compares to
    false. *)
Theorem unknown_operator_is_false (operator actual expected : Value) :
  (forall name,
     In name ["eq"; "ne"; "contains"; "in"; "matches"; "gt"; "lt"; "exists"] ->
     py_eq operator (VStr name) = false) ->
  _compare py operator actual expected = Ok false.
Proof.
  intros Hunknown.
  unfold _compare, operator_is.
  rewrite !Hunknown by (cbn; tauto).
  reflexivity.
Qed.

(** [float] raises nothing but [TypeError], [ValueError] and, on an
    integer only, [OverflowError]. *)
Lemma py_float_raises (v : Value) (e : Exn) :
  py_float py v = Raise e ->
  exn_class e = "TypeError" \/ exn_class e = "ValueError" \/
  (exn_class e = "OverflowError" /\ exists z, v = VInt z).
Proof.
  destruct v as [| b | z | f | s | b | l | d]; cbn [py_float].
  - intros H. inversion H. left. reflexivity.
  - destruct b; cbn; discriminate.
  - destruct (float_of_Z z); try discriminate.
    intros H. inversion H. right. right. split; [reflexivity | exists z; reflexivity].
  - discriminate.
  - destruct (float_of_text py s); [discriminate |].
    intros H. inversion H. right. left. reflexivity.
  - destruct (float_of_text py b); [discriminate |].
    intros H. inversion H. right. left. reflexivity.
  - intros H. inversion H. left. reflexivity.
  - intros H. inversion H. left. reflexivity.
Qed.

Lemma guarded_comparison (actual expected : Value)
    (test : spec_float -> spec_float -> bool) :
  (exists b,
     except_ ["TypeError"; "ValueError"]
       (bindR (py_float py actual) (fun a =>
        bindR (py_float py expected) (fun e => Ok (test a e))))
       (Ok false) = Ok b) \/
  (exists e z,
     except_ ["TypeError"; "ValueError"]
       (bindR (py_float py actual) (fun a =>
        bindR (py_float py expected) (fun e => Ok (test a e))))
       (Ok false) = Raise e /\
     exn_class e = "OverflowError" /\ (actual = VInt z \/ expected = VInt z)).
Proof.
  destruct (py_float py actual) as [a | e] eqn:Ha; cbn [bindR].
  - destruct (py_float py expected) as [x | e] eqn:He; cbn [bindR except_].
    + left. eexists. reflexivity.
    + destruct (py_float_raises _ He) as [Hc | [Hc | [Hc [z Hz]]]]; rewrite Hc; cbn.
      * left. eexists. reflexivity.
      * left. eexists. reflexivity.
      * right. exists e, z. repeat split; [exact Hc | right; exact Hz].
  - cbn [except_].
    destruct (py_float_raises _ Ha) as [Hc | [Hc | [Hc [z Hz]]]]; rewrite Hc; cbn.
    + left. eexists. reflexivity.
    + left. eexists. reflexivity.
    + right. exists e, z. repeat split; [exact Hc | left; exact Hz].
Qed.

Lemma operator_is_text (operator : Value) (name : string) :
  operator_is operator name = true -> operator = VStr name.
Proof.
  unfold operator_is.
  destruct operator; cbn [py_eq]; try discriminate.
  intros H. apply String.eqb_eq in H. rewrite H. reflexivity.
Qed.

(** A comparison raises in two ways only: [matches] on two texts raises
    what the regular-expression engine raises on the pattern, and [gt] and
    [lt] raise the [OverflowError] of an integer operand beyond the range
    of a float.  Every other comparison gives a boolean, whatever the
    types of the operator and of the operands; [gt] and [lt] on text that
    is no number give false. *)
Theorem comparison_raises_in_two_ways (operator actual expected : Value) (e : Exn) :
  _compare py operator actual expected = Raise e ->
  (exists text pattern,
     operator = VStr "matches" /\ actual = VStr text /\ expected = VStr pattern /\
     re_search py pattern text = Raise e) \/
  (exists z,
     (operator = VStr "gt" \/ operator = VStr "lt") /\
     exn_class e = "OverflowError" /\ (actual = VInt z \/ expected = VInt z)).
Proof.
  unfold _compare.
  destruct (operator_is operator "eq"); [discriminate |].
  destruct (operator_is operator "ne"); [discriminate |].
  destruct (operator_is operator "contains");
    [destruct actual; discriminate |].
  destruct (operator_is operator "in");
    [destruct expected; discriminate |].
  destruct (operator_is operator "matches") eqn:Hmatches.
  { intros Hraise. left.
    destruct actual; try discriminate Hraise.
    destruct expected; try discriminate Hraise.
    eexists. eexists.
    repeat split; [apply operator_is_text; exact Hmatches | exact Hraise]. }
  destruct (operator_is operator "gt") eqn:Hgt.
  { intros Hraise. right.
    destruct (guarded_comparison actual expected (fun a x => SFltb x a))
      as [[b Hb] | (e' & z & He & Hclass & Hint)].
    - rewrite Hb in Hraise. discriminate.
    - rewrite He in Hraise. inversion Hraise; subst e'.
      exists z. repeat split;
        [left; apply operator_is_text; exact Hgt | exact Hclass | exact Hint]. }
  destruct (operator_is operator "lt") eqn:Hlt.
  { intros Hraise. right.
    destruct (guarded_comparison actual expected (fun a x => SFltb a x))
      as [[b Hb] | (e' & z & He & Hclass & Hint)].
    - rewrite Hb in Hraise. discriminate.
    - rewrite He in Hraise. inversion Hraise; subst e'.
      exists z. repeat split;
        [right; apply operator_is_text; exact Hlt | exact Hclass | exact Hint]. }
  destruct (operator_is operator "exists"); discriminate.
Qed.

Lemma py_all_booleans (cs : list Value) (bs : list bool) (event_data : Value) :
  Forall2 (fun c b => _evaluate_conditions py c event_data = Ok b) cs bs ->
  py_all (fun c => _evaluate_conditions py c event_data) cs = Ok (forallb (fun b => b) bs).
Proof.
  induction 1 as [| c b cs bs Hc _ IH]; [reflexivity |].
  cbn [py_all forallb]. rewrite Hc. destruct b; [exact IH | reflexivity].
Qed.

Lemma py_any_booleans (cs : list Value) (bs : list bool) (event_data : Value) :
  Forall2 (fun c b => _evaluate_conditions py c event_data = Ok b) cs bs ->
  py_any (fun c => _evaluate_conditions py c event_data) cs = Ok (existsb (fun b => b) bs).
Proof.
  induction 1 as [| c b cs bs Hc _ IH]; [reflexivity |].
  cbn [py_any existsb]. rewrite Hc. destruct b; [reflexivity | exact IH].
Qed.

(** A composite over sub-conditions that evaluate to booleans is their
    conjunction under ["all"] and their disjunction under ["any"]; a
    mapping that has an ["all"] key is evaluated as that composite
    whatever other keys it has. *)
Theorem composites_are_conjunction_and_disjunction (d : Dict) (cs : list Value)
    (bs : list bool) (event_data : Value) :
  Forall2 (fun c b => _evaluate_conditions py c event_data = Ok b) cs bs ->
  (PyDict.lookup "all" d = Some (VList cs) ->
   _evaluate_conditions py (VDict d) event_data = Ok (forallb (fun b => b) bs)) /\
  (PyDict.lookup "all" d = None ->
   PyDict.lookup "any" d = Some (VList cs) ->
   _evaluate_conditions py (VDict d) event_data = Ok (existsb (fun b => b) bs)).
Proof.
  intros Hbs. split.
  - intros Hall. rewrite (evaluate_all_list py d event_data Hall).
    apply py_all_booleans. exact Hbs.
  - intros Hall Hany. rewrite (evaluate_any_list py d event_data Hall Hany).
    apply py_any_booleans. exact Hbs.
Qed.

(** Evaluation stops at the first sub-condition that decides: an ["all"]
    is false at the first false sub-condition and an ["any"] is true at
    the first true one, and the sub-conditions after it are not evaluated,
    so that one of them that would raise does no harm. *)
Theorem composites_short_circuit (d : Dict) (before after : list Value)
    (deciding : Value) (event_data : Value) :
  (PyDict.lookup "all" d = Some (VList (before ++ deciding :: after)) ->
   Forall (fun c => _evaluate_conditions py c event_data = Ok true) before ->
   _evaluate_conditions py deciding event_data = Ok false ->
   _evaluate_conditions py (VDict d) event_data = Ok false) /\
  (PyDict.lookup "all" d = None ->
   PyDict.lookup "any" d = Some (VList (before ++ deciding :: after)) ->
   Forall (fun c => _evaluate_conditions py c event_data = Ok false) before ->
   _evaluate_conditions py deciding event_data = Ok true ->
   _evaluate_conditions py (VDict d) event_data = Ok true).
Proof.
  split.
  - intros Hall Hbefore Hdeciding.
    rewrite (evaluate_all_list py d event_data Hall). clear Hall.
    induction Hbefore as [| c before Hc _ IH]; cbn [app py_all].
    + rewrite Hdeciding. reflexivity.
    + rewrite Hc. exact IH.
  - intros Hall Hany Hbefore Hdeciding.
    rewrite (evaluate_any_list py d event_data Hall Hany). clear Hall Hany.
    induction Hbefore as [| c before Hc _ IH]; cbn [app py_any].
    + rewrite Hdeciding. reflexivity.
    + rewrite Hc. exact IH.
Qed.

(** Field resolution raises on no path whose numeric segments [int]
    converts: when every segment that [isdigit] accepts is made of decimal
    digits, and of no more of them than [int] converts (4300), the path
    resolves, to a value or to [None], against any data. *)
Theorem resolve_field_total_on_decimal_segments (field_path : string) (data : Value) :
  Forall (fun part => isdigit part = true ->
                      is_decimal part = true /\
                      Z.of_nat (String.length part) <= int_max_str_digits)
         (split_dot field_path) ->
  exists v, _resolve_field field_path data = Ok v.
Proof.
  unfold _resolve_field.
  generalize (split_dot field_path) as parts.
  intros parts Hparts. revert data.
  induction Hparts as [| part rest Hpart _ IH]; intros data.
  - exists data. reflexivity.
  - cbn [resolve_parts].
    destruct data as [| b | z | f | s | b | l | d];
      try (exists VNone; reflexivity).
    + destruct (isdigit part) eqn:Hdigit; [| exists VNone; reflexivity].
      destruct (Hpart eq_refl) as [Hdecimal Hlen].
      rewrite (int_of_decimal _ Hdecimal Hlen). cbn [bindR]. apply IH.
    + apply IH.
Qed.

(** A segment that names a missing key, or a key that holds [None],
    resolves to [None] however the path goes on: a field that is absent
    and a field that is null cannot be told apart. *)
Theorem resolve_field_stops_at_none (part : string) (rest : list string) (d : Dict) :
  PyDict.get d part VNone = VNone ->
  resolve_parts (part :: rest) (VDict d) = Ok VNone.
Proof.
  intros Hnone. cbn [resolve_parts]. rewrite Hnone.
  destruct rest; reflexivity.
Qed.

End EvaluatorFacts.

(** ** The scheduled sweep *)

Section ScheduledSweep.

Import WorkflowExecutor.

Variable py : Builtins.
Variable svc : Services.

(** The run of a workflow that the store holds returns a log entry. *)
Lemma execute_workflow_returns (workflow_id : UUID) (workflow : Workflow)
    (trigger_data : Dict) (w : World) :
  load_workflow svc workflow_id = Some workflow ->
  exists log_entry w',
    execute_workflow py svc workflow_id trigger_data w = (Ok log_entry, w').
Proof.
  intros Hload.
  rewrite execute_workflow_unfold by (right; congruence). cbv zeta.
  destruct (try_block py svc workflow_id trigger_data _ w) as [[l | e] w1];
    eexists; eexists; reflexivity.
Qed.

(** The loop of the sweep passes over the rows without a ["schedule"]
    trigger and runs the executor on the others, in their order. *)
Lemma sweep_runs_scheduled (rows : list (UUID * Workflow)) (executed : Z) (w : World) :
  Scheduler.sweep py svc rows executed w =
  runs_in_turn py svc (scheduled_ids rows) executed w.
Proof.
  unfold scheduled_ids.
  revert executed w.
  induction rows as [| [workflow_id workflow] rest IH]; intros executed w.
  - reflexivity.
  - cbn [Scheduler.sweep filter snd].
    unfold has_schedule_trigger at 1.
    destruct (Scheduler.schedule_triggers workflow) as [| t ts].
    + apply IH.
    + cbn [map fst runs_in_turn].
      destruct (execute_workflow py svc workflow_id Scheduler.trigger_data
                  (new_runner (calls w))) as [[log_entry | e] w1];
        [apply IH | reflexivity].
Qed.

(** The runs of workflows that the store holds do not raise. *)
Lemma runs_in_turn_counts (ids : list UUID) (executed : Z) (w : World) :
  Forall (fun workflow_id => load_workflow svc workflow_id <> None) ids ->
  exists w',
    runs_in_turn py svc ids executed w =
    (Ok (executed + Z.of_nat (List.length ids)), w').
Proof.
  intros Hheld. revert executed w.
  induction Hheld as [| workflow_id rest Hid _ IH]; intros executed w.
  - exists w. cbn. rewrite Z.add_0_r. reflexivity.
  - cbn [runs_in_turn].
    destruct (load_workflow svc workflow_id) as [workflow |] eqn:Hload;
      [| exfalso; apply Hid; reflexivity].
    destruct (@execute_workflow_returns workflow_id workflow Scheduler.trigger_data
                (new_runner (calls w)) Hload) as (log_entry & w1 & Hrun).
    rewrite Hrun.
    destruct (IH (executed + 1) w1) as [w' Hrest]. exists w'.
    rewrite Hrest. cbn [List.length]. f_equal. f_equal. lia.
Qed.

(** The sweep executes every row that has a trigger with the source
    ["schedule"], and only those: what it returns and what it does to the
    world are what the runs of the executor on the ids of exactly those
    rows, one after the other in the order of the rows, return and do;
    a row without such a trigger leaves no trace.  When the rows are rows
    of the store, as the rows of the query are, no run raises whatever its
    outcome is, and the sweep returns the number of those rows. *)
Theorem sweep_executes_every_scheduled_workflow (rows : list (UUID * Workflow))
    (w : World) :
  Scheduler.run_scheduled_workflows py svc rows w =
    runs_in_turn py svc (scheduled_ids rows) 0 w /\
  (Forall (fun row => load_workflow svc (fst row) = Some (snd row)) rows ->
   exists w',
     Scheduler.run_scheduled_workflows py svc rows w =
     (Ok (Z.of_nat (List.length (scheduled_ids rows))), w')).
Proof.
  unfold Scheduler.run_scheduled_workflows.
  split; [apply sweep_runs_scheduled |].
  intros Hrows.
  rewrite sweep_runs_scheduled.
  apply (@runs_in_turn_counts (scheduled_ids rows) 0 w).
  unfold scheduled_ids.
  induction Hrows as [| [workflow_id workflow] rest Hrow _ IH]; cbn [filter snd].
  - constructor.
  - destruct (has_schedule_trigger workflow); [| exact IH].
    cbn [map fst]. constructor; [| exact IH].
    cbn [fst snd] in Hrow. rewrite Hrow. discriminate.
Qed.

Lemma text_eq (a b : string) : py_eq (VStr a) (VStr b) = String.eqb a b.
Proof. reflexivity. Qed.

(** The event of a scheduled run matches a trigger only if the source of
    the trigger is ["schedule"] and its event type is ["scheduled_run"];
    for a trigger without conditions that is all it takes. *)
Theorem scheduled_run_matches_its_own_event_type (trigger : Trigger) :
  (TriggerHandler.evaluate_trigger py trigger Scheduler.trigger_data = Ok true ->
   trigger_source trigger = "schedule" /\
   trigger_event_type trigger = "scheduled_run") /\
  (trigger_conditions trigger = None ->
   TriggerHandler.evaluate_trigger py trigger Scheduler.trigger_data =
     Ok (String.eqb (trigger_source trigger) "schedule" &&
         String.eqb (trigger_event_type trigger) "scheduled_run")).
Proof.
  unfold TriggerHandler.evaluate_trigger, Scheduler.trigger_data.
  cbn [PyDict.get PyDict.lookup String.eqb Ascii.eqb Bool.eqb truthy negb andb].
  rewrite !text_eq.
  rewrite (String.eqb_sym "schedule"), (String.eqb_sym "scheduled_run").
  split.
  - destruct (String.eqb_spec (trigger_source trigger) "schedule") as [Hs | Hs];
      cbn [negb]; [| discriminate].
    destruct (String.eqb_spec (trigger_event_type trigger) "scheduled_run") as [Ht | Ht];
      cbn [negb]; [| discriminate].
    intros _. split; assumption.
  - intros Hnone. rewrite Hnone.
    destruct (String.eqb (trigger_source trigger) "schedule"); cbn [negb andb];
      [| reflexivity].
    destruct (String.eqb (trigger_event_type trigger) "scheduled_run"); reflexivity.
Qed.

(** A workflow that the sweep executes for its ["schedule"] trigger does
    not run its actions when none of its triggers has the event type
    ["scheduled_run"]: the run is skipped with "No trigger matched". *)
Theorem scheduled_workflow_with_other_event_type_skipped (workflow_id : UUID)
    (workflow : Workflow) (made : list Call) :
  load_workflow svc workflow_id = Some workflow ->
  workflow_enabled workflow = true ->
  has_schedule_trigger workflow = true ->
  Forall (fun t => trigger_event_type t <> "scheduled_run") (workflow_triggers workflow) ->
  execute_workflow py svc workflow_id Scheduler.trigger_data (new_runner made) =
    (Ok (mkWorkflowLog workflow_id "skipped" (Some Scheduler.trigger_data)
                       (Some [("reason", VStr "No trigger matched")]) None),
     new_runner made).
Proof.
  intros Hload Henabled Hscheduled Hother.
  apply (@execute_without_match py svc workflow_id workflow Scheduler.trigger_data made
           Hload Henabled).
  - intros Hnil. unfold has_schedule_trigger, Scheduler.schedule_triggers in Hscheduled.
    rewrite Hnil in Hscheduled. discriminate.
  - eapply Forall_impl; [| exact Hother].
    intros t Ht.
    unfold TriggerHandler.evaluate_trigger, Scheduler.trigger_data.
    cbn [PyDict.get PyDict.lookup String.eqb Ascii.eqb Bool.eqb truthy negb andb].
    rewrite !text_eq.
    destruct (String.eqb "schedule" (trigger_source t)); cbn [negb]; [| reflexivity].
    destruct (String.eqb_spec "scheduled_run" (trigger_event_type t)) as [He | _];
      [symmetry in He; contradiction | reflexivity].
Qed.

End ScheduledSweep.

(** ** The events of the webhooks *)

Section WebhookEvents.

Import TriggerHandler.

Variable py : Builtins.

Lemma split_payload_path (path : string) :
  split_dot ("payload." ++ path) = "payload" :: split_dot path.
Proof.
  cbn [String.append split_dot Ascii.eqb Bool.eqb].
  destruct (split_dot path); reflexivity.
Qed.

(** A condition reaches the fields of the webhook body under
    ["payload"]: against the event of either webhook, the path
    ["payload.<path>"] resolves to what [<path>] resolves to against the
    body. *)
Theorem body_fields_resolve_under_payload (payload : Value) (trigger_data : Dict)
    (path : string) :
  Webhooks.paperless_trigger_data payload = Ok trigger_data \/
  Webhooks.lexoffice_trigger_data payload = Ok trigger_data ->
  _resolve_field ("payload." ++ path) (VDict trigger_data) =
  _resolve_field path payload.
Proof.
  intros Hevent.
  unfold _resolve_field. rewrite split_payload_path.
  cbn [resolve_parts].
  assert (Hbody : PyDict.get trigger_data "payload" VNone = payload).
  { destruct Hevent as [H | H];
      destruct payload; try discriminate H;
      cbn in H; inversion H; reflexivity. }
  rewrite Hbody. reflexivity.
Qed.

Lemma other_source_stops (trigger : Trigger) (event_data : Dict) (source : string) :
  PyDict.lookup "source" event_data = Some (VStr source) ->
  source <> "" ->
  trigger_source trigger <> source ->
  evaluate_trigger py trigger event_data = Ok false.
Proof.
  intros Hsource Hnonempty Hother.
  unfold evaluate_trigger, PyDict.get. rewrite Hsource.
  cbn [truthy py_eq].
  destruct (String.eqb_spec source "") as [He | _]; [contradiction |].
  destruct (String.eqb_spec source (trigger_source trigger)) as [He | _];
    [symmetry in He; contradiction |].
  reflexivity.
Qed.

(** The source of a webhook event is that of its endpoint, whatever the
    body holds, a [source] field included: the event of the Paperless
    webhook matches no trigger of another source, and neither does the
    event of the Lexoffice webhook. *)
Theorem webhook_events_keep_their_source (payload : Value) (trigger_data : Dict)
    (trigger : Trigger) :
  (Webhooks.paperless_trigger_data payload = Ok trigger_data ->
   PyDict.lookup "source" trigger_data = Some (VStr "paperless") /\
   (trigger_source trigger <> "paperless" ->
    evaluate_trigger py trigger trigger_data = Ok false)) /\
  (Webhooks.lexoffice_trigger_data payload = Ok trigger_data ->
   PyDict.lookup "source" trigger_data = Some (VStr "lexoffice") /\
   (trigger_source trigger <> "lexoffice" ->
    evaluate_trigger py trigger trigger_data = Ok false)).
Proof.
  split; intros Hevent.
  - assert (Hsource : PyDict.lookup "source" trigger_data = Some (VStr "paperless")).
    { destruct payload; try discriminate Hevent.
      cbn in Hevent. inversion Hevent. reflexivity. }
    split; [exact Hsource |].
    intros Hother. apply (other_source_stops trigger trigger_data Hsource);
      [discriminate | exact Hother].
  - assert (Hsource : PyDict.lookup "source" trigger_data = Some (VStr "lexoffice")).
    { destruct payload; try discriminate Hevent.
      cbn in Hevent. inversion Hevent. reflexivity. }
    split; [exact Hsource |].
    intros Hother. apply (other_source_stops trigger trigger_data Hsource);
      [discriminate | exact Hother].
Qed.

End WebhookEvents.

(** ** Tagging a document *)

Section Tagging.

Import PaperlessConnector.

Variable py : Builtins.
Variable server : Server.

(** [add_tag_to_document] reads the document and writes its tags back:
    the tags it writes are the tags it read when the tag is among them,
    and these followed by the tag when it is not, so no tag is removed,
    moved or written twice.  When the read fails, nothing is written. *)
Theorem add_tag_keeps_the_tags (document_id tag_id : Value) (sent : list Request) :
  let url := document_url py document_id in
  (forall doc tags,
     server sent (Get url) = Ok (VDict doc) ->
     PyDict.get doc "tags" (VList []) = VList tags ->
     let written := if py_in_list tag_id tags then tags else (tags ++ [tag_id])%list in
     add_tag_to_document py server document_id tag_id sent =
       (server (sent ++ [Get url])%list (Patch url [("tags", VList written)]),
        (sent ++ [Get url; Patch url [("tags", VList written)]])%list)) /\
  (forall e,
     server sent (Get url) = Raise e ->
     add_tag_to_document py server document_id tag_id sent =
       (Raise e, (sent ++ [Get url])%list)).
Proof.
  intros url. split.
  - intros doc tags Hread Htags written.
    unfold add_tag_to_document, get_document, update_document.
    fold url. rewrite Hread. cbn [py_get]. rewrite Htags.
    cbn [py_contains]. subst written.
    destruct (py_in_list tag_id tags); cbn [negb py_append];
      rewrite <- app_assoc; reflexivity.
  - intros e Hread.
    unfold add_tag_to_document, get_document.
    fold url. rewrite Hread. reflexivity.
Qed.

End Tagging.

(** ** Paging *)

(** The number of pages is the number of pages that hold an item: for a
    page size of at least 1 and a total of at least 0, the offset of page
    [page] is below the total exactly when [page] is at most [pages]. *)
Theorem pages_are_the_nonempty_pages (total page_size page : Z) :
  1 <= page_size ->
  0 <= total ->
  1 <= page ->
  (Paging.offset page page_size < total <-> page <= Paging.pages total page_size).
Proof.
  intros Hsize Htotal Hpage.
  unfold Paging.offset, Paging.pages.
  destruct (Z.eqb_spec total 0) as [Hzero | Hpos].
  - subst total. split; intros H; nia.
  - pose proof (Z.div_mod (total + page_size - 1) page_size ltac:(lia)) as Hdiv.
    pose proof (Z.mod_pos_bound (total + page_size - 1) page_size ltac:(lia)) as Hmod.
    set (q := (total + page_size - 1) / page_size) in *.
    set (r := (total + page_size - 1) mod page_size) in *.
    split; intros H; nia.
Qed.

(** ** The further properties on sample inputs *)

Lemma disabled_workflow_skipped_witness :
  WorkflowExecutor.execute_workflow Sample.runtime Demo.services "paused"
    Demo.titled_event (new_runner []) =
  (Ok (mkWorkflowLog "paused" "skipped" (Some Demo.titled_event)
         (Some [("reason", VStr "Workflow is disabled")]) None),
   new_runner []).
Proof.
  apply (@disabled_workflow_skipped Sample.runtime Demo.services "paused" Demo.paused
           Demo.titled_event []); reflexivity.
Defined.

Lemma unknown_workflow_is_error_witness :
  WorkflowExecutor.execute_workflow Sample.runtime Demo.lenient "nowhere"
    Demo.titled_event (new_runner []) =
  (Ok (mkWorkflowLog "nowhere" "error" (Some Demo.titled_event) None
         (Some "Workflow nowhere not found")),
   new_runner []).
Proof.
  apply (@unknown_workflow_is_error Sample.runtime Demo.lenient "nowhere"
           Demo.titled_event []); reflexivity.
Defined.

Lemma flushed_run_is_terminal_witness :
  exists (log_entry : WorkflowLog) (w' : World),
    WorkflowExecutor.execute_workflow Sample.runtime Demo.services "first-wins"
      Demo.titled_event (new_runner []) = (Ok log_entry, w') /\
    (log_status log_entry = "skipped" \/
     log_status log_entry = "success" \/
     log_status log_entry = "error") /\
    log_status log_entry <> "running".
Proof.
  apply (@flushed_run_is_terminal Sample.runtime Demo.services "first-wins"
           Demo.titled_event (new_runner [])).
  right. cbn. discriminate.
Defined.

Lemma unmatched_workflow_skipped_witness :
  WorkflowExecutor.execute_workflow Sample.runtime Demo.services "vouchers-only"
    Sample.event (new_runner []) =
  (Ok (mkWorkflowLog "vouchers-only" "skipped" (Some Sample.event)
         (Some [("reason", VStr "No trigger matched")]) None),
   new_runner []).
Proof.
  apply (@unmatched_workflow_skipped Sample.runtime Demo.services "vouchers-only"
           Demo.vouchers_only Sample.event []).
  - reflexivity.
  - reflexivity.
  - discriminate.
  - repeat constructor.
Defined.

Lemma raising_trigger_is_error_witness :
  WorkflowExecutor.execute_workflow Sample.runtime Demo.services "broken-trigger"
    Demo.titled_event (new_runner []) =
  (Ok (mkWorkflowLog "broken-trigger" "error" (Some Demo.titled_event) None
         (Some "pattern outside the plain fragment")),
   new_runner []).
Proof.
  apply (@raising_trigger_is_error Sample.runtime Demo.services "broken-trigger"
           Demo.broken_trigger Demo.titled_event [Demo.on_voucher] []
           Demo.on_bad_pattern (mkExn "error" "pattern outside the plain fragment") []).
  - reflexivity.
  - reflexivity.
  - reflexivity.
  - repeat constructor.
  - reflexivity.
Defined.

Lemma first_matching_trigger_wins_witness :
  WorkflowExecutor.execute_workflow Sample.runtime Demo.services "first-wins"
    Demo.titled_event Sample.fresh =
  (Ok (mkWorkflowLog "first-wins" "success" (Some Demo.titled_event)
         (Some [("actions",
                 VList [VDict [("action_type", VStr "set_tag");
                               ("result",
                                VDict [("tagged", VBool true);
                                       ("document",
                                        VDict [("id", VInt 42);
                                               ("tags", VList [VInt 7])])])]])])
         None),
   mkWorld [AddTagToDocument (VInt 42) (VInt 7); ClosePaperless] true false).
Proof.
  rewrite (@first_matching_trigger_wins Sample.runtime Demo.services "first-wins"
             Demo.first_wins Demo.titled_event [Demo.on_voucher] [Demo.on_bad_pattern]
             Sample.on_document_created Sample.fresh).
  - reflexivity.
  - reflexivity.
  - reflexivity.
  - reflexivity.
  - repeat constructor.
  - reflexivity.
Defined.

Lemma successful_run_lists_every_action_witness :
  List.length
    [VDict [("action_type", VStr "set_tag");
            ("result",
             VDict [("tagged", VBool true);
                    ("document",
                     VDict [("id", VInt 42); ("tags", VList [VInt 7])])])]] =
  List.length (workflow_actions Sample.untriggered).
Proof.
  apply (@successful_run_lists_every_action Sample.runtime Sample.services
           Sample.untriggered_id Sample.untriggered [("document_id", VInt 42)] false
           (PyDict.update [("document_id", VInt 42)]
              [("tagged", VBool true);
               ("document", VDict [("id", VInt 42); ("tags", VList [VInt 7])])])
           [VDict [("action_type", VStr "set_tag");
                   ("result",
                    VDict [("tagged", VBool true);
                           ("document",
                            VDict [("id", VInt 42); ("tags", VList [VInt 7])])])]]
           Sample.fresh
           (mkWorld [AddTagToDocument (VInt 42) (VInt 7)] true false)).
  - reflexivity.
  - reflexivity.
  - reflexivity.
  - right. reflexivity.
  - reflexivity.
Defined.

Lemma synced_contact_reaches_voucher_witness :
  exists voucher_data,
    calls (snd (WorkflowExecutor.run_actions Sample.runtime Demo.office
                  [Demo.sync_acme; Demo.book_voucher] [] [] Sample.fresh)) =
      [SearchContacts (VStr "ACME"); CreateVoucher voucher_data] /\
    PyDict.lookup "contactId" voucher_data = Some (VStr "c-17").
Proof.
  apply (@synced_contact_reaches_voucher Sample.runtime Demo.office
           Demo.sync_acme Demo.book_voucher [] [] Sample.fresh
           [("content", VList [VDict [("id", VStr "c-17"); ("name", VStr "ACME")]])]
           [("id", VStr "c-17"); ("name", VStr "ACME")] []);
    reflexivity.
Defined.

Lemma downloaded_file_reaches_upload_witness :
  exists title correspondent document_type tags,
    calls (snd (WorkflowExecutor.run_actions Sample.runtime Demo.office
                  [Demo.fetch_42; Demo.send_copy] [] [] Sample.fresh)) =
      [DownloadDocument (VInt 42); GetDocument (VInt 42);
       UploadDocument (VBytes "%PDF-1.7") (VStr "invoice.pdf") title correspondent
                      document_type tags].
Proof.
  apply (@downloaded_file_reaches_upload Sample.runtime Demo.office
           Demo.fetch_42 Demo.send_copy [] [] Sample.fresh (VBytes "%PDF-1.7")
           [("id", VInt 42); ("original_file_name", VStr "invoice.pdf")] 8);
    reflexivity.
Defined.

Lemma sync_contact_creates_when_none_found_witness :
  ActionRunner._sync_contact Sample.services Sample.tag_invoices [] Sample.fresh =
    (Ok ([("synced", VBool false); ("reason", VStr "No correspondent name provided")],
         []),
     mkWorld [] true true) /\
  calls (snd (ActionRunner._sync_contact Demo.office Demo.sync_acme [] Sample.fresh)) =
    [SearchContacts (VStr "ACME")].
Proof.
  split.
  - apply (proj1 (sync_contact_creates_when_none_found Sample.services
                    Sample.tag_invoices [] Sample.fresh)).
    reflexivity.
  - apply (proj2 (sync_contact_creates_when_none_found Demo.office
                    Demo.sync_acme [] Sample.fresh)
                 (VDict [("content",
                          VList [VDict [("id", VStr "c-17"); ("name", VStr "ACME")]])])
                 (VList [VDict [("id", VStr "c-17"); ("name", VStr "ACME")]]));
      reflexivity.
Defined.

Lemma unknown_action_type_raises_witness :
  ActionRunner.run_action Sample.runtime Sample.services Demo.archive [] Sample.fresh =
    (Raise (ValueError "Unknown action type: archive_document"), Sample.fresh).
Proof.
  apply (@unknown_action_type_raises Sample.runtime Sample.services Demo.archive []
           Sample.fresh).
  cbn. intros H.
  repeat (destruct H as [H | H]; [discriminate H |]).
  exact H.
Defined.

Lemma merged_context_prefers_result_witness :
  PyDict.lookup "filename"
    (PyDict.update [("filename", VStr "old.pdf"); ("document_id", VInt 42)]
                   [("downloaded", VBool true); ("filename", VStr "invoice.pdf")]) =
  Some (VStr "invoice.pdf").
Proof.
  apply (@merged_context_prefers_result
           [("filename", VStr "old.pdf"); ("document_id", VInt 42)]
           [("downloaded", VBool true); ("filename", VStr "invoice.pdf")] "filename").
  cbn. repeat constructor; cbn; intuition discriminate.
Defined.

Lemma unknown_operator_is_false_witness :
  TriggerHandler._compare Sample.runtime (VStr "startswith") (VStr "invoice") (VStr "in")
  = Ok false.
Proof.
  apply (@unknown_operator_is_false Sample.runtime (VStr "startswith")).
  cbn. intros name H.
  repeat (destruct H as [H | H]; [rewrite <- H; reflexivity |]).
  contradiction.
Defined.

Lemma comparison_raises_in_two_ways_witness :
  (exists text pattern,
     VStr "matches" = VStr "matches" /\ VStr "x" = VStr text /\ VStr "(" = VStr pattern /\
     re_search Sample.runtime pattern text =
       Raise (mkExn "error" "pattern outside the plain fragment")) \/
  (exists z,
     (VStr "matches" = VStr "gt" \/ VStr "matches" = VStr "lt") /\
     exn_class (mkExn "error" "pattern outside the plain fragment") = "OverflowError" /\
     (VStr "x" = VInt z \/ VStr "(" = VInt z)).
Proof.
  apply (@comparison_raises_in_two_ways Sample.runtime (VStr "matches") (VStr "x")
           (VStr "(") (mkExn "error" "pattern outside the plain fragment")).
  reflexivity.
Defined.

Lemma composites_are_conjunction_and_disjunction_witness :
  TriggerHandler._evaluate_conditions Sample.runtime
    (VDict [("all", VList [VDict (Demo.requires "document_id");
                           VDict (Demo.requires "voucher_id")]);
            ("any", VList [])])
    (VDict Sample.event) = Ok false /\
  TriggerHandler._evaluate_conditions Sample.runtime
    (VDict [("any", VList [VDict (Demo.requires "document_id");
                           VDict (Demo.requires "voucher_id")])])
    (VDict Sample.event) = Ok true.
Proof.
  split.
  - apply (proj1 (@composites_are_conjunction_and_disjunction Sample.runtime
                    [("all", VList [VDict (Demo.requires "document_id");
                                    VDict (Demo.requires "voucher_id")]);
                     ("any", VList [])]
                    [VDict (Demo.requires "document_id");
                     VDict (Demo.requires "voucher_id")]
                    [true; false] (VDict Sample.event)
                    ltac:(repeat constructor))).
    reflexivity.
  - apply (proj2 (@composites_are_conjunction_and_disjunction Sample.runtime
                    [("any", VList [VDict (Demo.requires "document_id");
                                    VDict (Demo.requires "voucher_id")])]
                    [VDict (Demo.requires "document_id");
                     VDict (Demo.requires "voucher_id")]
                    [true; false] (VDict Sample.event)
                    ltac:(repeat constructor))); reflexivity.
Defined.

Lemma composites_short_circuit_witness :
  TriggerHandler._evaluate_conditions Sample.runtime
    (VDict [("all", VList [VDict (Demo.requires "voucher_id"); VInt 5])])
    (VDict Sample.event) = Ok false /\
  TriggerHandler._evaluate_conditions Sample.runtime
    (VDict [("any", VList [VDict (Demo.requires "document_id"); VInt 5])])
    (VDict Sample.event) = Ok true.
Proof.
  split.
  - apply (proj1 (@composites_short_circuit Sample.runtime
                    [("all", VList [VDict (Demo.requires "voucher_id"); VInt 5])]
                    [] [VInt 5] (VDict (Demo.requires "voucher_id"))
                    (VDict Sample.event)));
      [reflexivity | constructor | reflexivity].
  - apply (proj2 (@composites_short_circuit Sample.runtime
                    [("any", VList [VDict (Demo.requires "document_id"); VInt 5])]
                    [] [VInt 5] (VDict (Demo.requires "document_id"))
                    (VDict Sample.event)));
      [reflexivity | reflexivity | constructor | reflexivity].
Defined.

Lemma resolve_field_total_on_decimal_segments_witness :
  exists v, TriggerHandler._resolve_field "a.b.1" nested_example = Ok v.
Proof.
  apply (@resolve_field_total_on_decimal_segments "a.b.1" nested_example).
  cbn. repeat (apply Forall_cons || apply Forall_nil); intros H;
    try discriminate H.
  split; [reflexivity | unfold int_max_str_digits; cbn; lia].
Defined.

Lemma sweep_executes_every_scheduled_workflow_witness :
  Scheduler.run_scheduled_workflows Sample.runtime Demo.services Demo.table
    Sample.fresh =
    runs_in_turn Sample.runtime Demo.services ["nightly"] 0 Sample.fresh /\
  exists w',
    Scheduler.run_scheduled_workflows Sample.runtime Demo.services Demo.table
      Sample.fresh = (Ok 1, w').
Proof.
  destruct (@sweep_executes_every_scheduled_workflow Sample.runtime Demo.services
              Demo.table Sample.fresh) as [Hruns Hcount].
  split; [exact Hruns |].
  apply Hcount. repeat constructor.
Defined.

Lemma resolve_field_stops_at_none_witness :
  TriggerHandler.resolve_parts ["c"; "d"; "0"]
    (VDict [("b", VList [VInt 10; VInt 20]); ("e", VNone)]) = Ok VNone.
Proof.
  apply (@resolve_field_stops_at_none "c" ["d"; "0"]
           [("b", VList [VInt 10; VInt 20]); ("e", VNone)]).
  reflexivity.
Defined.

Lemma scheduled_run_matches_its_own_event_type_witness :
  ("schedule" = "schedule" /\ "scheduled_run" = "scheduled_run") /\
  TriggerHandler.evaluate_trigger Sample.runtime (mkTrigger "schedule" "daily" None)
    Scheduler.trigger_data = Ok false.
Proof.
  split.
  - apply (proj1 (scheduled_run_matches_its_own_event_type Sample.runtime
                    (mkTrigger "schedule" "scheduled_run" None))).
    reflexivity.
  - apply (proj2 (scheduled_run_matches_its_own_event_type Sample.runtime
                    (mkTrigger "schedule" "daily" None))).
    reflexivity.
Defined.

Lemma scheduled_workflow_with_other_event_type_skipped_witness :
  WorkflowExecutor.execute_workflow Sample.runtime Demo.services "nightly"
    Scheduler.trigger_data (new_runner []) =
  (Ok (mkWorkflowLog "nightly" "skipped" (Some Scheduler.trigger_data)
         (Some [("reason", VStr "No trigger matched")]) None),
   new_runner []).
Proof.
  apply (@scheduled_workflow_with_other_event_type_skipped Sample.runtime Demo.services
           "nightly" Demo.nightly []).
  - reflexivity.
  - reflexivity.
  - reflexivity.
  - repeat constructor. discriminate.
Defined.

Lemma body_fields_resolve_under_payload_witness :
  TriggerHandler._resolve_field "payload.tags.1"
    (VDict [("source", VStr "paperless"); ("event_type", VStr "document_updated");
            ("document_id", VInt 42); ("payload", Demo.webhook_body)]) =
  TriggerHandler._resolve_field "tags.1" Demo.webhook_body.
Proof.
  apply (@body_fields_resolve_under_payload Demo.webhook_body
           [("source", VStr "paperless"); ("event_type", VStr "document_updated");
            ("document_id", VInt 42); ("payload", Demo.webhook_body)] "tags.1").
  left. reflexivity.
Defined.

Lemma webhook_events_keep_their_source_witness :
  TriggerHandler.evaluate_trigger Sample.runtime (mkTrigger "lexoffice" "document_updated" None)
    [("source", VStr "paperless"); ("event_type", VStr "document_updated");
     ("document_id", VInt 42); ("payload", Demo.webhook_body)] = Ok false /\
  TriggerHandler.evaluate_trigger Sample.runtime Sample.on_document_created
    [("source", VStr "lexoffice"); ("event_type", VStr "unknown");
     ("resource_id", VNone); ("organization_id", VNone);
     ("payload", Demo.webhook_body)] = Ok false.
Proof.
  split.
  - apply (proj1 (@webhook_events_keep_their_source Sample.runtime Demo.webhook_body
                    [("source", VStr "paperless"); ("event_type", VStr "document_updated");
                     ("document_id", VInt 42); ("payload", Demo.webhook_body)]
                    (mkTrigger "lexoffice" "document_updated" None))).
    + reflexivity.
    + discriminate.
  - apply (proj2 (@webhook_events_keep_their_source Sample.runtime Demo.webhook_body
                    [("source", VStr "lexoffice"); ("event_type", VStr "unknown");
                     ("resource_id", VNone); ("organization_id", VNone);
                     ("payload", Demo.webhook_body)]
                    Sample.on_document_created)).
    + reflexivity.
    + discriminate.
Defined.

Lemma add_tag_keeps_the_tags_witness :
  PaperlessConnector.add_tag_to_document Sample.runtime Demo.server (VInt 42) (VInt 7) [] =
    (Ok (VDict [("tags", VList [VInt 1; VInt 7])]),
     [PaperlessConnector.Get "/api/documents/42/";
      PaperlessConnector.Patch "/api/documents/42/" [("tags", VList [VInt 1; VInt 7])]]) /\
  PaperlessConnector.add_tag_to_document Sample.runtime Demo.server (VInt 42) (VInt 9) [] =
    (Ok (VDict [("tags", VList [VInt 1; VInt 7; VInt 9])]),
     [PaperlessConnector.Get "/api/documents/42/";
      PaperlessConnector.Patch "/api/documents/42/"
        [("tags", VList [VInt 1; VInt 7; VInt 9])]]) /\
  PaperlessConnector.add_tag_to_document Sample.runtime
    (fun _ _ => Raise (mkExn "ConnectError" "All connection attempts failed"))
    (VInt 42) (VInt 9) [] =
    (Raise (mkExn "ConnectError" "All connection attempts failed"),
     [PaperlessConnector.Get "/api/documents/42/"]).
Proof.
  split; [| split].
  - apply (proj1 (add_tag_keeps_the_tags Sample.runtime Demo.server (VInt 42) (VInt 7) [])
                 [("id", VInt 42); ("tags", VList [VInt 1; VInt 7])] [VInt 1; VInt 7]);
      reflexivity.
  - apply (proj1 (add_tag_keeps_the_tags Sample.runtime Demo.server (VInt 42) (VInt 9) [])
                 [("id", VInt 42); ("tags", VList [VInt 1; VInt 7])] [VInt 1; VInt 7]);
      reflexivity.
  - apply (proj2 (add_tag_keeps_the_tags Sample.runtime
                    (fun _ _ => Raise (mkExn "ConnectError" "All connection attempts failed"))
                    (VInt 42) (VInt 9) [])).
    reflexivity.
Defined.

Lemma pages_are_the_nonempty_pages_witness :
  Paging.offset 3 25 < 51 <-> 3 <= Paging.pages 51 25.
Proof.
  apply (@pages_are_the_nonempty_pages 51 25 3); lia.
Defined.
